(** * Receipt rendering and printer dispatch of the PDV terminal

    A shallow embedding of [Database.get_setting], [Database.set_setting]
    and of the class [ThermalPrinter] of [pedidos2.py], with the
    properties of the receipt layout and of the transport selection.

    Python values are modelled as follows.
    - A [str] is the list of its Unicode code points ([list N]); [len]
      is the length of that list.
    - [bytes] is a list of numbers below 256.
    - An [int] is a [Z].
    - A [float] is a sign, a mantissa and a binary exponent, or one of
      the special values; the type is a superset of the IEEE doubles,
      and every finite value is formatted from its exact value, as
      CPython does.
    - A [dict] with string keys is a [gmap].
    - An exception is a record of its class name and its argument.
    - The SQLite file is a record of its three tables; reading a setting
      is a lookup, and errors of SQLite itself are left out.
    - Sockets and USB devices are an environment that says, for each
      call and the calls made before it, whether the call raises; every
      call is recorded in a trace, so that a statement can be made for
      all environments. *)

From Stdlib Require Import ZArith NArith QArith Lqa Decimal DecimalN.
From stdpp Require Import gmap strings list sorting.

Local Open Scope Z_scope.

(** ** Python strings *)

Abbreviation pystr := (list N) (only parsing).
Abbreviation pybytes := (list N) (only parsing).

(** The code points of an ASCII literal of the source. *)
Definition str (s : string) : pystr :=
  Ascii.N_of_ascii <$> String.list_ascii_of_string s.

Definition len {A} (s : list A) : Z := Z.of_nat (length s).

(** [c * n] for a one-character string [c] and an int [n]: empty when
    [n <= 0]. *)
Definition repeat_char (c : N) (n : Z) : pystr := replicate (Z.to_nat n) c.

Definition SPACE : N := 32%N.
Definition DASH : N := 45%N.
Definition NEWLINE : N := 10%N.

(** [s[:k]]: a negative [k] counts from the end. *)
Definition slice_to (s : pystr) (k : Z) : pystr :=
  if 0 <=? k then take (Z.to_nat k) s
  else take (Z.to_nat (len s + k)) s.

(** [s.center(width)] with the space as fill character.  CPython puts
    [marg / 2 + (marg & width & 1)] fill characters on the left and the
    rest on the right; a string at least [width] long is returned as it
    is. *)
Definition center (s : pystr) (width : Z) : pystr :=
  if width <=? len s then s
  else
    let marg := width - len s in
    let left := marg / 2 + Z.land (Z.land marg width) 1 in
    repeat_char SPACE left ++ s ++ repeat_char SPACE (marg - left).

(** [sep.join(lines)] *)
Fixpoint join (sep : pystr) (lines : list pystr) : pystr :=
  match lines with
  | [] => []
  | [l] => l
  | l :: rest => l ++ sep ++ join sep rest
  end.

(** ** Decimal numerals *)

Fixpoint uint_codes (d : Decimal.uint) : pystr :=
  match d with
  | Nil => []
  | D0 d => 48%N :: uint_codes d
  | D1 d => 49%N :: uint_codes d
  | D2 d => 50%N :: uint_codes d
  | D3 d => 51%N :: uint_codes d
  | D4 d => 52%N :: uint_codes d
  | D5 d => 53%N :: uint_codes d
  | D6 d => 54%N :: uint_codes d
  | D7 d => 55%N :: uint_codes d
  | D8 d => 56%N :: uint_codes d
  | D9 d => 57%N :: uint_codes d
  end.

(** The decimal digits of a natural number, ["0"] for zero. *)
Definition dec_N (n : N) : pystr := uint_codes (N.to_uint n).

(** [f"{q}"] for an int [q]. *)
Definition format_int (q : Z) : pystr :=
  if q <? 0 then DASH :: dec_N (Z.abs_N q) else dec_N (Z.to_N q).

(** ** Python floats and the [.2f] format *)

Inductive pyfloat :=
| Finite (sign : bool) (m : N) (e : Z)   (* (-1)^sign * m * 2^e *)
| Infinity (sign : bool)
| NaN.

(** [num / den] rounded to the nearest integer, ties to the even one. *)
Definition round_half_even (num den : N) : N :=
  let q := (num / den)%N in
  let r := (num mod den)%N in
  if (2 * r <? den)%N then q
  else if (den <? 2 * r)%N then (q + 1)%N
  else if N.even q then q else (q + 1)%N.

(** The magnitude [m * 2^e], in hundredths, correctly rounded. *)
Definition hundredths (m : N) (e : Z) : N :=
  if 0 <=? e then (m * 2 ^ Z.to_N e * 100)%N
  else round_half_even (m * 100) (2 ^ Z.to_N (- e)).

Definition two_digits (c : N) : pystr := [(48 + c / 10)%N; (48 + c mod 10)%N].

(** [f"{x:.2f}"].  The sign is that of the sign bit, also when the
    magnitude rounds to zero. *)
Definition fmt2 (x : pyfloat) : pystr :=
  match x with
  | Finite s m e =>
      let c := hundredths m e in
      (if s then [DASH] else []) ++ dec_N (c / 100) ++ str "." ++ two_digits (c mod 100)
  | Infinity s => if s then str "-inf" else str "inf"
  | NaN => str "nan"
  end.

(** ** The receipt text: [ThermalPrinter._build_text] *)

Definition cart_line : Type := Z * pystr * pyfloat.

(** [store.get(key, default)] *)
Definition dict_get (d : gmap (list N) (list N)) (key : pystr) (default : pystr) : pystr :=
  match d !! key with
  | Some v => v
  | None => default
  end.

(** Python truth value of a string. *)
Definition truthy (s : pystr) : bool :=
  match s with [] => false | _ => true end.

Definition header_rows (store : gmap (list N) (list N)) : list pystr :=
  let name := dict_get store (str "name") (str "Minha Loja") in
  let addr := dict_get store (str "address") [] in
  let phone := dict_get store (str "phone") [] in
  [center name 32]
  ++ (if truthy addr then [center addr 32] else [])
  ++ (if truthy phone then [center (str "Tel: " ++ phone) 32] else []).

(** The body of the loop over the cart. *)
Definition item_row (it : cart_line) : pystr :=
  let '(q, n, p) := it in
  let line := format_int q ++ str "x " ++ n in
  let price_line := fmt2 p in
  let line :=
    if 32 <? len line + len price_line
    then slice_to line (32 - len price_line - 1)
    else line in
  line ++ repeat_char SPACE (32 - len line - len price_line) ++ price_line.

Definition separator : pystr := repeat_char DASH 32.

Definition total_row (total : pyfloat) : pystr :=
  str "TOTAL" ++ repeat_char SPACE 27 ++ fmt2 total.

Definition payment_row (payment : pystr) : pystr :=
  str "Pagamento: " ++ payment.

(** The list [lines] at the end of [_build_text]. *)
Definition build_lines (store : gmap (list N) (list N)) (items : list cart_line)
    (total : pyfloat) (payment : pystr) : list pystr :=
  header_rows store
  ++ [separator]
  ++ (item_row <$> items)
  ++ [separator; total_row total; payment_row payment; separator;
      str "Obrigado!"; [NEWLINE]].

(** ** UTF-8 *)

Inductive exn := Exn { exn_class : string; exn_arg : pystr }.

Definition ValueError (arg : pystr) : exn := Exn "ValueError" arg.
Definition RuntimeError (arg : pystr) : exn := Exn "RuntimeError" arg.
Definition UnicodeEncodeError (arg : pystr) : exn := Exn "UnicodeEncodeError" arg.

Definition is_surrogate (c : N) : bool := ((55296 <=? c) && (c <=? 57343))%N.

(** A code point that a [str] can hold and UTF-8 can encode. *)
Definition encodable (c : N) : bool := ((c <? 1114112) && negb (is_surrogate c))%N.

Definition utf8_char (c : N) : option pybytes :=
  if (c <? 128)%N then Some [c]
  else if (c <? 2048)%N then
    Some [(192 + c / 64)%N; (128 + c mod 64)%N]
  else if is_surrogate c then None
  else if (c <? 65536)%N then
    Some [(224 + c / 4096)%N; (128 + (c / 64) mod 64)%N; (128 + c mod 64)%N]
  else if (c <? 1114112)%N then
    Some [(240 + c / 262144)%N; (128 + (c / 4096) mod 64)%N;
          (128 + (c / 64) mod 64)%N; (128 + c mod 64)%N]
  else None.

(** [s.encode('utf-8')]: strict, a surrogate raises. *)
Fixpoint encode_utf8 (s : pystr) : exn + pybytes :=
  match s with
  | [] => inr []
  | c :: rest =>
      match utf8_char c with
      | None => inl (UnicodeEncodeError [c])
      | Some bs =>
          match encode_utf8 rest with
          | inl e => inl e
          | inr bs' => inr (bs ++ bs')
          end
      end
  end.

Definition _build_text (store : gmap (list N) (list N)) (items : list cart_line)
    (total : pyfloat) (payment : pystr) : exn + pybytes :=
  encode_utf8 (join [NEWLINE] (build_lines store items total payment)).

Definition burger_store : gmap (list N) (list N) :=
  {[ str "name" := str "Burger House" ]}.

Definition f_25 : pyfloat := Finite false 25 0.
Definition f_5 : pyfloat := Finite false 5 0.
Definition f_30 : pyfloat := Finite false 30 0.
Definition f_eighth : pyfloat := Finite false 1 (-3).

(** ** Layout predicates *)





(** ** Reading an amount back from its two-decimal text *)

Definition digit_code (c : N) : option (Decimal.uint -> Decimal.uint) :=
  match c with
  | 48%N => Some D0 | 49%N => Some D1 | 50%N => Some D2 | 51%N => Some D3
  | 52%N => Some D4 | 53%N => Some D5 | 54%N => Some D6 | 55%N => Some D7
  | 56%N => Some D8 | 57%N => Some D9
  | _ => None
  end.

Fixpoint codes_uint (s : pystr) : option Decimal.uint :=
  match s with
  | [] => Some Nil
  | c :: rest =>
      match digit_code c, codes_uint rest with
      | Some d, Some u => Some (d u)
      | _, _ => None
      end
  end.

(** The value of a non-empty string of decimal digits. *)
Definition dec_value (s : pystr) : option N :=
  match s with
  | [] => None
  | _ => N.of_uint <$> codes_uint s
  end.

(** A leading minus sign and the rest. *)
Definition split_sign (s : pystr) : bool * pystr :=
  match s with
  | c :: r => if (c =? DASH)%N then (true, r) else (false, s)
  | [] => (false, s)
  end.

(** The number of hundredths shown by a text of the shape
    [-]digits.dd, as the [.2f] format writes a finite amount. *)
Definition displayed_cents (s : pystr) : option Z :=
  let '(neg, body) := split_sign s in
  let k := (length body - 3)%nat in
  match drop k body with
  | [46%N; d1; d2] =>
      match dec_value (take k body), dec_value [d1; d2] with
      | Some i, Some f =>
          let c := Z.of_N (i * 100 + f) in
          Some (if neg then - c else c)
      | _, _ => None
      end
  | _ => None
  end.

(** The sum of the amounts shown by a list of texts. *)
Fixpoint sum_displayed (texts : list pystr) : option Z :=
  match texts with
  | [] => Some 0
  | t :: rest =>
      match displayed_cents t, sum_displayed rest with
      | Some c, Some acc => Some (c + acc)
      | _, _ => None
      end
  end.

(** The exact value of a finite float. *)
Definition float_value (x : pyfloat) : option Q :=
  match x with
  | Finite s m e =>
      let mag :=
        if 0 <=? e then inject_Z (Z.of_N m * 2 ^ e)
        else Qmake (Z.of_N m) (2 ^ Z.to_pos (- e))%positive in
      Some (if s then Qopp mag else mag)
  | _ => None
  end.

Fixpoint sum_values (xs : list pyfloat) : option Q :=
  match xs with
  | [] => Some (inject_Z 0)
  | x :: rest =>
      match float_value x, sum_values rest with
      | Some v, Some acc => Some (Qplus v acc)
      | _, _ => None
      end
  end.


(** ** [int(s)] and [int(s, 16)] on ASCII text

    Surrounding white space, an optional sign, for base 16 an optional
    [0x] prefix, then digits with single underscores between them.
    CPython also accepts the decimal digits and spaces of other scripts
    from its Unicode tables; they are rejected here. *)

Definition is_space (c : N) : bool :=
  (((9 <=? c) && (c <=? 13)) || (c =? 32))%N.

Fixpoint lstrip (s : pystr) : pystr :=
  match s with
  | c :: rest => if is_space c then lstrip rest else s
  | [] => []
  end.

Definition strip (s : pystr) : pystr := reverse (lstrip (reverse (lstrip s))).

Definition digit_value (c : N) : option Z :=
  if ((48 <=? c) && (c <=? 57))%N then Some (Z.of_N c - 48)
  else if ((97 <=? c) && (c <=? 122))%N then Some (Z.of_N c - 87)
  else if ((65 <=? c) && (c <=? 90))%N then Some (Z.of_N c - 55)
  else None.

Definition UNDERSCORE : N := 95%N.

Fixpoint digits_value (base : Z) (s : pystr) (prev_underscore : bool) (acc : Z)
    : option Z :=
  match s with
  | [] => if prev_underscore then None else Some acc
  | c :: rest =>
      if (c =? UNDERSCORE)%N then
        if prev_underscore then None else digits_value base rest true acc
      else
        match digit_value c with
        | Some d =>
            if d <? base then digits_value base rest false (acc * base + d)
            else None
        | None => None
        end
  end.

(** The value of a stripped literal. *)
Definition int_literal (body : pystr) (base : Z) : option Z :=
  let '(neg, body) :=
    match body with
    | 43%N :: r => (false, r)
    | 45%N :: r => (true, r)
    | _ => (false, body)
    end in
  let body :=
    match body with
    | 48%N :: x :: r =>
        if (base =? 16) && ((x =? 120) || (x =? 88))%N then
          match r with
          | 95%N :: r' => r'
          | _ => r
          end
        else body
    | _ => body
    end in
  match body with
  | [] => None
  | c :: _ =>
      if (c =? UNDERSCORE)%N then None
      else
        match digits_value base body false 0 with
        | Some v => Some (if neg then - v else v)
        | None => None
        end
  end.

(** [int(s, base)]; a text that is no literal raises [ValueError]. *)
Definition py_int (s : pystr) (base : Z) : exn + Z :=
  match int_literal (strip s) base with
  | Some v => inr v
  | None => inl (ValueError s)
  end.

(** ** The world: the database and the calls made on devices *)

Inductive event :=
| SocketNew                                  (* socket.socket(AF_INET, SOCK_STREAM) *)
| SocketSetTimeout (seconds : Z)             (* s.settimeout *)
| SocketConnect (ip : pystr) (port : Z)      (* s.connect *)
| SocketSendAll (data : pybytes)             (* s.sendall *)
| SocketClose                                (* leaving the with block *)
| UsbOpen (vendor product : Z)               (* Usb(vendor, product) *)
| UsbText (txt : pystr)                      (* p.text *)
| UsbCut                                     (* p.cut *)
| UsbClose.                                  (* p.close *)

(** A call as it happened: the call and the exception it raised, if any. *)
Definition call_record : Type := event * option exn.

(** The three tables that [Database._init_db] creates. *)
Record database := Database {
  products : list (Z * pystr * pystr * pyfloat);           (* id, code, name, price *)
  sales : list (Z * pystr * pyfloat * pystr * pystr);      (* id, ts, total, payment, items *)
  settings : gmap (list N) (list N)                        (* k, v *)
}.

Record world := World {
  db : database;
  trace : list call_record
}.

Definition db_settings (w : world) : gmap (list N) (list N) := settings (db w).

(** A computation either raises or returns, and leaves a world. *)
Definition M (A : Type) : Type := world -> (exn + A) * world.

Definition ret {A} (a : A) : M A := fun w => (inr a, w).

Definition raise {A} (e : exn) : M A := fun w => (inl e, w).

Definition bind {A B} (m : M A) (k : A -> M B) : M B :=
  fun w =>
    match m w with
    | (inr a, w') => k a w'
    | (inl e, w') => (inl e, w')
    end.

Definition lift {A} (r : exn + A) : M A :=
  match r with
  | inl e => raise e
  | inr a => ret a
  end.

Notation "'let!' x ':=' m 'in' k" := (bind m (fun x => k))
  (at level 10, x name, m at level 100, k at level 200).
Notation "m '>>' k" := (bind m (fun _ => k))
  (at level 100, k at level 200, right associativity).

(** [try: m finally: cleanup]; an exception of the cleanup replaces the
    outcome of [m]. *)
Definition finally {A} (m : M A) (cleanup : M unit) : M A :=
  fun w =>
    match m w with
    | (r, w') =>
        match cleanup w' with
        | (inr _, w'') => (r, w'')
        | (inl e, w'') => (inl e, w'')
        end
    end.

(** [try: m except Exception as e: raise] *)
Definition try_reraise {A} (m : M A) : M A :=
  fun w =>
    match m w with
    | (inl e, w') => raise e w'
    | (inr a, w') => (inr a, w')
    end.

Fixpoint for_each {A} (xs : list A) (body : A -> M unit) : M unit :=
  match xs with
  | [] => ret tt
  | x :: rest => body x >> for_each rest body
  end.

(** [Database.set_setting] and [Database.get_setting] *)
Definition set_setting (k v : pystr) : M unit :=
  fun w =>
    (inr tt,
     World (Database (products (db w)) (sales (db w)) (<[k := v]> (db_settings w)))
       (trace w)).

Definition get_setting (k default : pystr) : M pystr :=
  fun w => (inr (dict_get (db_settings w) k default), w).

(** ** The transports and the dispatcher: [ThermalPrinter] *)

Section Printer.

(** The module constant [ESC_POS_AVAILABLE], set when the program is
    loaded. *)
Variable ESC_POS_AVAILABLE : bool.

(** The network and the printers: what a call raises, if anything,
    given the calls made so far. *)
Variable env : list call_record -> event -> option exn.

(** A call on a socket or on a device; it is recorded, also when it
    raises. *)
Definition call (ev : event) : M unit :=
  fun w =>
    let outcome := env (trace w) ev in
    let w' := World (db w) (trace w ++ [(ev, outcome)]) in
    match outcome with
    | None => (inr tt, w')
    | Some e => (inl e, w')
    end.

(** [with socket.socket(AF_INET, SOCK_STREAM) as s: body] *)
Definition with_socket {A} (body : M A) : M A :=
  call SocketNew >> finally body (call SocketClose).

Definition _print_network (ip : pystr) (port : Z) (data_bytes : pybytes) : M bool :=
  try_reraise
    (with_socket
       (call (SocketSetTimeout 5) >>
        call (SocketConnect ip port) >>
        call (SocketSendAll data_bytes)) >>
     ret true).

Definition usb_item_text (it : cart_line) : pystr :=
  let '(q, n, pr) := it in
  format_int q ++ str "x " ++ n ++ str " - " ++ fmt2 pr ++ [NEWLINE].

(** The message of the guard: 'python-escpos não disponível'. *)
Definition escpos_missing : pystr :=
  str "python-escpos n" ++ [227%N] ++ str "o dispon" ++ [237%N] ++ str "vel".

Definition _print_escpos_usb (vendor product : Z) (store : gmap (list N) (list N))
    (items : list cart_line) (total : pyfloat) (payment : pystr) : M bool :=
  if negb ESC_POS_AVAILABLE then raise (RuntimeError escpos_missing)
  else
    call (UsbOpen vendor product) >>
    call (UsbText (dict_get store (str "name") [] ++ [NEWLINE])) >>
    call (UsbText (separator ++ [NEWLINE])) >>
    for_each items (fun it => call (UsbText (usb_item_text it))) >>
    call (UsbText (separator ++ [NEWLINE])) >>
    call (UsbText (str "TOTAL: " ++ fmt2 total ++ [NEWLINE])) >>
    call (UsbText (str "Pagamento: " ++ payment ++ [NEWLINE])) >>
    call UsbCut >>
    ret true.

(** The condition of the [elif] branch. *)
Definition usb_selected (mode vendor product : pystr) : bool :=
  bool_decide (mode = str "escpos_usb")
  && ESC_POS_AVAILABLE && truthy vendor && truthy product.

Definition print_receipt (store : gmap (list N) (list N)) (items : list cart_line)
    (total : pyfloat) (payment : pystr) : M bool :=
  let! mode := get_setting (str "printer_mode") (str "network") in
  let! ip := get_setting (str "printer_ip") (str "192.168.0.100") in
  let! port_text := get_setting (str "printer_port") (str "9100") in
  let! port := lift (py_int port_text 10) in
  let! vendor := get_setting (str "printer_usb_vendor") [] in
  let! product := get_setting (str "printer_usb_product") [] in
  let! text := lift (_build_text store items total payment) in
  if bool_decide (mode = str "network") then
    _print_network ip port text
  else if usb_selected mode vendor product then
    let! v := lift (py_int vendor 16) in
    let! p := lift (py_int product 16) in
    _print_escpos_usb v p store items total payment
  else
    _print_network ip port text.

End Printer.

(** ** Sample settings and environments *)

Definition settings_of (l : list (string * string)) : gmap (list N) (list N) :=
  list_to_map ((fun kv => (str kv.1, str kv.2)) <$> l).

Definition world_of (l : list (string * string)) : world :=
  World (Database [] [] (settings_of l)) [].

(** Every call succeeds. *)
Definition env_ok : list call_record -> event -> option exn :=
  fun _ _ => None.

Definition ConnectionRefusedError : exn := Exn "ConnectionRefusedError" [].

(** The printer refuses the connection. *)
Definition env_refused : list call_record -> event -> option exn :=
  fun _ ev =>
    match ev with
    | SocketConnect _ _ => Some ConnectionRefusedError
    | _ => None
    end.

(** The events of a list of call records. *)
Definition events (t : list call_record) : list event := fst <$> t.

(** The call records a computation adds to the trace. *)
Definition new_calls {A} (m : M A) (w : world) : list call_record :=
  drop (length (trace w)) (trace (m w).2).

(** ** Amounts of a cart, and encodable text *)

Definition item_amounts (items : list cart_line) : list pyfloat := snd <$> items.

(** [total] is finite and is the exact sum of the line totals. *)
Definition exact_total (items : list cart_line) (total : pyfloat) : Prop :=
  exists v t,
    sum_values (item_amounts items) = Some v /\
    float_value total = Some t /\
    Qeq v t.

Definition encodable_str (s : pystr) : Prop := Forall (fun c => encodable c = true) s.

Definition f_quarter : pyfloat := Finite false 1 (-2).

(** ** Frames *)

(** [m] leaves the database as it is and only adds calls on events
    that satisfy [P] to the trace. *)
Definition adds_only {A} (P : event -> Prop) (m : M A) : Prop :=
  forall w,
    db (m w).2 = db w /\
    exists new, trace (m w).2 = trace w ++ new /\ Forall (fun c : call_record => P c.1) new.

Definition is_socket_event (ev : event) : Prop :=
  match ev with
  | SocketNew | SocketSetTimeout _ | SocketConnect _ _ | SocketSendAll _
  | SocketClose => True
  | _ => False
  end.

Definition is_usb_command (ev : event) : Prop :=
  match ev with
  | UsbOpen _ _ | UsbText _ | UsbCut => True
  | _ => False
  end.

Definition succeeded (c : call_record) : Prop := c.2 = None.

(** The device of the sample settings. *)
Definition usb_settings : list (string * string) :=
  [("printer_mode", "escpos_usb"); ("printer_usb_vendor", "0x04b8");
   ("printer_usb_product", "0x0202")].

Definition is_new (ev : event) : bool :=
  match ev with SocketNew => true | _ => false end.

Definition is_close (ev : event) : bool :=
  match ev with SocketClose => true | _ => false end.

Definition is_send (ev : event) : bool :=
  match ev with SocketSendAll _ => true | _ => false end.

(** How many of the calls are on an event of the kind [kind]. *)
Fixpoint count_calls (kind : event -> bool) (calls : list call_record) : nat :=
  match calls with
  | [] => 0
  | c :: rest => (if kind c.1 then 1 else 0) + count_calls kind rest
  end.

(** What the last failed call raised, if a call failed. *)
Fixpoint last_raised (calls : list call_record) : option exn :=
  match calls with
  | [] => None
  | (_, outcome) :: rest =>
      match last_raised rest with
      | Some e => Some e
      | None => outcome
      end
  end.

(** A call that waits for the peer. *)
Definition is_transfer (ev : event) : Prop :=
  match ev with
  | SocketConnect _ _ | SocketSendAll _ => True
  | _ => False
  end.

(** [m] neither reads nor writes the database: from a given trace it
    gives the same result and the same calls, whatever the database. *)
Definition ignores_settings {A} (m : M A) : Prop :=
  forall t, exists r t', forall d, m (World d t) = (r, World d t').

(** The settings that [print_receipt] asks for. *)
Definition printer_keys : list pystr :=
  [str "printer_mode"; str "printer_ip"; str "printer_port";
   str "printer_usb_vendor"; str "printer_usb_product"].


(** What [print_receipt] does with the five settings once they are read. *)
Definition dispatch (avail : bool) (env : list call_record -> event -> option exn)
    (store : gmap (list N) (list N)) (items : list cart_line) (total : pyfloat)
    (payment mode ip port_text vendor product : pystr) : M bool :=
  let! port := lift (py_int port_text 10) in
  let! text := lift (_build_text store items total payment) in
  if bool_decide (mode = str "network") then
    _print_network env ip port text
  else if usb_selected avail mode vendor product then
    let! v := lift (py_int vendor 16) in
    let! p := lift (py_int product 16) in
    _print_escpos_usb avail env v p store items total payment
  else
    _print_network env ip port text.


(** ** Commands sent one after the other *)

(** The calls to make, in order, stopping after the first that raises. *)
Definition call_all (env : list call_record -> event -> option exn)
    (evs : list event) : M unit :=
  for_each evs (call env).

(** The records that calling [evs] in order from the trace [t] leaves:
    each call with what the environment answers, up to and including
    the first call that raises. *)
Fixpoint script_calls (env : list call_record -> event -> option exn)
    (t : list call_record) (evs : list event) : list call_record :=
  match evs with
  | [] => []
  | ev :: rest =>
      match env t ev with
      | None => (ev, None) :: script_calls env (t ++ [(ev, None)]) rest
      | Some e => [(ev, Some e)]
      end
  end.

(** The commands of [_print_escpos_usb], in the order of the source. *)
Definition usb_script (vendor product : Z) (store : gmap (list N) (list N))
    (items : list cart_line) (total : pyfloat) (payment : pystr) : list event :=
  [UsbOpen vendor product;
   UsbText (dict_get store (str "name") [] ++ [NEWLINE]);
   UsbText (separator ++ [NEWLINE])]
  ++ ((fun it => UsbText (usb_item_text it)) <$> items)
  ++ [UsbText (separator ++ [NEWLINE]);
      UsbText (str "TOTAL: " ++ fmt2 total ++ [NEWLINE]);
      UsbText (str "Pagamento: " ++ payment ++ [NEWLINE]);
      UsbCut].

Definition is_usb_open (ev : event) : bool :=
  match ev with UsbOpen _ _ => true | _ => false end.

(** ** The rest of [Database]: products and sales *)

Definition product_row : Type := Z * pystr * pystr * pyfloat.

Definition product_id (r : product_row) : Z := r.1.1.1.
Definition product_code (r : product_row) : pystr := r.1.1.2.
Definition product_name (r : product_row) : pystr := r.1.2.
Definition product_price (r : product_row) : pyfloat := r.2.

Definition by_id (r1 r2 : product_row) : Prop := product_id r1 <= product_id r2.

#[global] Instance by_id_dec : RelDecision by_id :=
  fun r1 r2 => decide (product_id r1 <= product_id r2).

(** [Database.list_products]: the rows of the table, ORDER BY id. *)
Definition list_products : M (list product_row) :=
  fun w => (inr (merge_sort by_id (products (db w))), w).

(** [SELECT name,price FROM products WHERE id=?] and [fetchone]. *)
Definition select_product (pid : Z) (rows : list product_row) : option (pystr * pyfloat) :=
  (fun r => (product_name r, product_price r))
    <$> head (filter (fun r => product_id r = pid) rows).

(** The text of one cart line in a sale, in the cart list box and on
    the USB printer: [f"{q}x {n} - {p:.2f}"]. *)
Definition sale_line (it : cart_line) : pystr :=
  let '(q, n, p) := it in
  format_int q ++ str "x " ++ n ++ str " - " ++ fmt2 p.

Definition OverflowError : exn := Exn "OverflowError" [].
Definition OperationalError : exn := Exn "OperationalError" [].

(** An int that SQLite can take as a parameter, or hold as an id. *)
Definition int64 (z : Z) : bool := (- 2 ^ 63 <=? z) && (z <? 2 ^ 63).

(** The id that AUTOINCREMENT gives to a new row of a table from which
    no row was ever deleted, as is the case of the sales. *)
Definition next_id (ids : list Z) : Z := 1 + foldr Z.max 0 ids.

Definition sale_id (r : Z * pystr * pyfloat * pystr * pystr) : Z := r.1.1.1.1.

(** [Database.save_sale]; [ts] is what [time.strftime] returns during
    the call.  The three texts are bound as UTF-8, in the order of the
    statement, and a text that cannot be encoded raises before the row
    is written; AUTOINCREMENT refuses a new row once the largest id,
    2^63 - 1, is taken.  (A NaN total, which SQLite stores as NULL, is
    kept as it is.) *)
Definition save_sale (ts : pystr) (items : list cart_line) (total : pyfloat)
    (payment : pystr) : M unit :=
  fun w =>
    let items_text := join [NEWLINE] (sale_line <$> items) in
    let row := (next_id (sale_id <$> sales (db w)), ts, total, payment, items_text) in
    match encode_utf8 ts, encode_utf8 payment, encode_utf8 items_text with
    | inl e, _, _ => (inl e, w)
    | inr _, inl e, _ => (inl e, w)
    | inr _, inr _, inl e => (inl e, w)
    | inr _, inr _, inr _ =>
        if negb (int64 (next_id (sale_id <$> sales (db w))))
        then (inl OperationalError, w)
        else
          (inr tt,
           World (Database (products (db w)) (sales (db w) ++ [row]) (settings (db w)))
             (trace w))
    end.

(** ** The window: [PDVApp] *)

(** The entries of the configuration tab. *)
Record config_form := ConfigForm {
  e_store_name : pystr;
  e_store_addr : pystr;
  e_store_phone : pystr;
  pm_var : pystr;
  e_printer_ip : pystr;
  e_printer_port : pystr;
  e_usb_vendor : pystr;
  e_usb_product : pystr
}.

(** A message box, as shown to the user; [ShowError] keeps the
    exception whose text ends the message. *)
Inductive dialog :=
| ShowInfo (title message : pystr)
| ShowError (title message : pystr) (e : exn).

(** A row of a Treeview: its iid and its values. *)
Definition tv_row : Type := pystr * (Z * pystr * pystr * pystr).

Record PDVApp := App {
  app_world : world;                 (* self.db and the devices *)
  cart : list cart_line;             (* self.cart *)
  lb_cart : list pystr;              (* the lines of self.lb_cart *)
  total_var : pystr;                 (* self.total_var *)
  form : config_form;                (* the entries of the configuration tab *)
  tv_sale_products : list tv_row;    (* self.tv_sale_products *)
  dialogs : list dialog              (* the message boxes shown so far *)
}.

Definition IndexError : exn := Exn "IndexError" [].

(** The eight entries hold text that SQLite can store. *)
Definition form_encodable (f : config_form) : Prop :=
  encodable_str (e_store_name f) /\ encodable_str (e_store_addr f) /\
  encodable_str (e_store_phone f) /\ encodable_str (pm_var f) /\
  encodable_str (e_printer_ip f) /\ encodable_str (e_printer_port f) /\
  encodable_str (e_usb_vendor f) /\ encodable_str (e_usb_product f).
Definition TclError (arg : pystr) : exn := Exn "TclError" arg.

(** 'Configurações salvas', 'Venda salva e impressão enviada' and
    'Erro Impressão'. *)
Definition msg_config_saved : pystr :=
  str "Configura" ++ [231%N; 245%N] ++ str "es salvas".
Definition msg_sale_printed : pystr :=
  str "Venda salva e impress" ++ [227%N] ++ str "o enviada".
Definition title_print_error : pystr :=
  str "Erro Impress" ++ [227%N] ++ str "o".

Section Window.

Variable ESC_POS_AVAILABLE : bool.
Variable env : list call_record -> event -> option exn.

(** [sum] on a non-empty list of floats and [int * float]: the
    floating-point arithmetic of Python, left open.  The product raises
    [OverflowError] for an int too large for a float. *)
Variable float_sum : list pyfloat -> pyfloat.
Variable int_times_float : Z -> pyfloat -> exn + pyfloat.

(** [sum([p for _,_,p in self.cart])]; the sum of no amount is the int
    0, which [.2f] writes as 0.00. *)
Definition cart_total (c : list cart_line) : pyfloat :=
  match c with
  | [] => Finite false 0 0
  | _ => float_sum (item_amounts c)
  end.

Definition _update_total (a : PDVApp) : PDVApp :=
  App (app_world a) (cart a) (lb_cart a) (fmt2 (cart_total (cart a))) (form a)
    (tv_sale_products a) (dialogs a).

Definition show (d : dialog) (a : PDVApp) : PDVApp :=
  App (app_world a) (cart a) (lb_cart a) (total_var a) (form a)
    (tv_sale_products a) (dialogs a ++ [d]).

(** [sel] is the selection of the product list (iids), [qty_text] the
    text of the quantity spin box. *)
Definition _add_to_cart (sel : list pystr) (qty_text : pystr) (a : PDVApp)
      : (exn + unit) * PDVApp :=
  match sel with
  | [] => (inr tt, show (ShowInfo (str "Aviso") (str "Selecione um produto")) a)
  | iid :: _ =>
      match py_int iid 10 with
      | inl e => (inl e, a)
      | inr pid =>
          match py_int qty_text 10 with
          | inl e => (inl e, a)
          | inr qty =>
              if negb (int64 pid) then (inl OverflowError, a)
              else
                match select_product pid (products (db (app_world a))) with
                | None => (inr tt, a)
                | Some (name, price) =>
                    match int_times_float qty price with
                    | inl e => (inl e, a)
                    | inr total_price =>
                        let it := (qty, name, total_price) in
                        (inr tt,
                         _update_total
                           (App (app_world a) (cart a ++ [it])
                              (lb_cart a ++ [sale_line it]) (total_var a) (form a)
                              (tv_sale_products a) (dialogs a)))
                    end
                end
          end
      end
  end.

(** [cursel] is the selection of the cart list box (indices). *)
Definition _remove_cart_item (cursel : list nat) (a : PDVApp)   : (exn + unit) * PDVApp :=
  match cursel with
  | [] => (inr tt, a)
  | idx :: _ =>
      let a1 :=
        App (app_world a) (cart a) (delete idx (lb_cart a)) (total_var a) (form a)
          (tv_sale_products a) (dialogs a) in
      if bool_decide (idx < length (cart a))%nat then
        (inr tt,
         _update_total
           (App (app_world a1) (delete idx (cart a1)) (lb_cart a1) (total_var a1)
              (form a1) (tv_sale_products a1) (dialogs a1)))
      else (inl IndexError, a1)
  end.

(** The store that [_finalize] hands to the printer. *)
Definition read_store : M (gmap (list N) (list N)) :=
  let! name := get_setting (str "store_name") (str "Minha Loja") in
  let! address := get_setting (str "store_address") [] in
  let! phone := get_setting (str "store_phone") [] in
  ret (<[str "name" := name]>
         (<[str "address" := address]> (<[str "phone" := phone]> ∅))).

(** [payment] is the value of the payment combo box and [ts] the time
    of the sale.  Only the printing is inside the [try]; every
    exception it raises is caught. *)
Definition _finalize (ts payment : pystr) (a : PDVApp)   : (exn + unit) * PDVApp :=
  match cart a with
  | [] => (inr tt, show (ShowInfo (str "Aviso") (str "Carrinho vazio")) a)
  | _ =>
      let total := cart_total (cart a) in
      match (save_sale ts (cart a) total payment >> read_store) (app_world a) with
      | (inl e, w2) =>
          (inl e,
           App w2 (cart a) (lb_cart a) (total_var a) (form a) (tv_sale_products a)
             (dialogs a))
      | (inr store, w2) =>
          let '(printed, w3) :=
            print_receipt ESC_POS_AVAILABLE env store (cart a) total payment w2 in
          let d :=
            match printed with
            | inr _ => ShowInfo (str "Sucesso") msg_sale_printed
            | inl e =>
                ShowError title_print_error (str "Falha ao imprimir:" ++ [NEWLINE]) e
            end in
          (inr tt,
           _update_total
             (App w3 [] [] (total_var a) (form a) (tv_sale_products a)
                (dialogs a ++ [d])))
      end
  end.

(** The entries are taken to hold text that SQLite can store; text
    that it cannot encode would raise at the first such entry. *)
Definition _save_config (a : PDVApp) : PDVApp :=
  let f := form a in
  let saved :=
    (set_setting (str "store_name") (e_store_name f) >>
     set_setting (str "store_address") (e_store_addr f) >>
     set_setting (str "store_phone") (e_store_phone f) >>
     set_setting (str "printer_mode") (pm_var f) >>
     set_setting (str "printer_ip") (e_printer_ip f) >>
     set_setting (str "printer_port") (e_printer_port f) >>
     set_setting (str "printer_usb_vendor") (e_usb_vendor f) >>
     set_setting (str "printer_usb_product") (e_usb_product f)) (app_world a) in
  show (ShowInfo (str "Sucesso") msg_config_saved)
    (App saved.2 (cart a) (lb_cart a) (total_var a) (form a) (tv_sale_products a)
       (dialogs a)).

(** [Treeview.insert('', 'end', iid=..., values=...)]: an iid that is
    already in the tree is refused. *)
Definition tv_insert (row : tv_row) (tv : list tv_row) : exn + list tv_row :=
  if bool_decide (row.1 ∈ (fst <$> tv)) then inl (TclError row.1)
  else inr (tv ++ [row]).

Definition sale_tv_row (r : product_row) : tv_row :=
  (format_int (product_id r),
   (product_id r, product_code r, product_name r, fmt2 (product_price r))).

Fixpoint tv_insert_all (rows : list product_row) (tv : list tv_row)
    : (exn + unit) * list tv_row :=
  match rows with
  | [] => (inr tt, tv)
  | r :: rest =>
      match tv_insert (sale_tv_row r) tv with
      | inl e => (inl e, tv)
      | inr tv' => tv_insert_all rest tv'
      end
  end.

Definition _load_products_into_sale (a : PDVApp)   : (exn + unit) * PDVApp :=
  let rows := merge_sort by_id (products (db (app_world a))) in
  let '(r, tv) := tv_insert_all rows [] in
  (r, App (app_world a) (cart a) (lb_cart a) (total_var a) (form a) tv (dialogs a)).

Definition _load_store (a : PDVApp)   : (exn + unit) * PDVApp :=
  let s := db_settings (app_world a) in
  let f :=
    ConfigForm
      (dict_get s (str "store_name") (str "Minha Loja"))
      (dict_get s (str "store_address") (str "Rua Exemplo, 123"))
      (dict_get s (str "store_phone") (str "(11) 99999-9999"))
      (dict_get s (str "printer_mode") (str "network"))
      (dict_get s (str "printer_ip") (str "192.168.0.100"))
      (dict_get s (str "printer_port") (str "9100"))
      (dict_get s (str "printer_usb_vendor") [])
      (dict_get s (str "printer_usb_product") []) in
  _load_products_into_sale
    (App (app_world a) (cart a) (lb_cart a) (total_var a) f (tv_sale_products a)
       (dialogs a)).

End Window.

(** The cart list box shows the cart, line for line, and the total on
    screen is the total of the cart. *)
Definition in_sync (float_sum : list pyfloat -> pyfloat) (a : PDVApp) : Prop :=
  lb_cart a = sale_line <$> cart a /\
  total_var a = fmt2 (cart_total float_sum (cart a)).

(** ** The rest of [Database]: changing the products *)




(** ** A sample shop *)

Definition burger_row : product_row :=
  (1, str "001", str "Burguer Classico", Finite false 25 (-1)).

Definition shop_app : PDVApp :=
  App (World (Database [burger_row] [] ∅) [])
    [(1, str "A", f_5)] [str "1x A - 5.00"] (str "5.00")
    (ConfigForm [] [] [] [] [] [] [] []) [] [].

Definition shop_form : config_form :=
  ConfigForm (str "Burger House") (str "Rua A, 10") (str "1234")
    (str "network") (str "10.0.0.5") (str "9100") [] [].

Definition configured_app : PDVApp :=
  App (app_world shop_app) (cart shop_app) (lb_cart shop_app)
    (total_var shop_app) shop_form [] [].

(** Stand-ins for the arithmetic of floats in the examples. *)
Definition sum_is_5 : list pyfloat -> pyfloat := fun _ => f_5.
Definition times_one : Z -> pyfloat -> exn + pyfloat := fun _ p => inr p.
(** * Properties *)

Example item_row_burger :
  item_row (2, str "Burguer Classico", f_25) = str "2x Burguer Classico        25.00".
Proof. vm_compute. reflexivity. Qed.

Example fmt2_eighth : fmt2 f_eighth = str "0.12".
Proof. vm_compute. reflexivity. Qed.

(** ** Lengths *)

Lemma len_app {A} (a b : list A) : len (a ++ b) = len a + len b.
Proof. unfold len. rewrite length_app. lia. Qed.

Lemma len_nonneg {A} (a : list A) : 0 <= len a.
Proof. unfold len. lia. Qed.

Lemma len_repeat_char c n : len (repeat_char c n) = Z.max 0 n.
Proof. unfold len, repeat_char. rewrite length_replicate. lia. Qed.


Lemma len_str_TOTAL : len (str "TOTAL") = 5.
Proof. reflexivity. Qed.

Lemma len_fmt2_ge x : 3 <= len (fmt2 x).
Proof.
  destruct x as [s m e|[]|]; try (vm_compute; discriminate).
  unfold fmt2. cbv zeta. rewrite !len_app.
  pose proof (len_nonneg (if s then [DASH] else [])).
  pose proof (len_nonneg (dec_N (hundredths m e / 100))).
  change (len (str ".")) with 1.
  change (len (two_digits (hundredths m e `mod` 100))) with 2.
  lia.
Qed.

(** ** The header rows *)




(** ** The item rows *)






(** ** The claims on the layout *)


(** C2: the TOTAL row is in the receipt, it is the literal TOTAL, 27
    spaces and the two-decimal total, and it is never 32 characters
    wide: its width is 32 plus the width of the amount (37 for 30.00). *)
Theorem total_row_width store items total payment :
  total_row total ∈ build_lines store items total payment /\
  total_row total = str "TOTAL" ++ repeat_char SPACE 27 ++ fmt2 total /\
  fmt2 total `suffix_of` total_row total /\
  len (total_row total) = 32 + len (fmt2 total) /\
  len (total_row total) <> 32 /\
  len (total_row f_30) = 37.
Proof.
  pose proof (len_fmt2_ge total) as Hamt.
  assert (Hlen : len (total_row total) = 32 + len (fmt2 total)).
  { unfold total_row. rewrite !len_app, len_repeat_char, len_str_TOTAL. lia. }
  split_and!; try done; try lia.
  - unfold build_lines. set_solver.
  - unfold total_row. exists (str "TOTAL" ++ repeat_char SPACE 27).
    by rewrite <- app_assoc.
Qed.

Example total_row_of_30 :
  total_row f_30 = str "TOTAL                           30.00".
Proof. vm_compute. reflexivity. Qed.




(** ** Encoding *)

Lemma utf8_char_encodable c : encodable c = true -> is_Some (utf8_char c).
Proof.
  unfold encodable, utf8_char. intros [Hlt Hsur]%andb_prop.
  apply negb_true_iff in Hsur. rewrite Hsur, Hlt.
  repeat case_match; eauto.
Qed.

Lemma utf8_char_not_encodable c : encodable c = false -> utf8_char c = None.
Proof.
  unfold encodable, utf8_char, is_surrogate.
  intros H.
  repeat match goal with
         | |- context [N.ltb ?a ?b] => destruct (N.ltb_spec a b)
         | |- context [N.leb ?a ?b] => destruct (N.leb_spec a b)
         end; simpl in *; try done;
  repeat match goal with
         | H : context [N.ltb ?a ?b] |- _ => destruct (N.ltb_spec a b)
         | H : context [N.leb ?a ?b] |- _ => destruct (N.leb_spec a b)
         end; simpl in *; try done; lia.
Qed.

Lemma utf8_char_bytes c bs :
  utf8_char c = Some bs -> Forall (fun b => (b < 256)%N) bs.
Proof.
  unfold utf8_char, is_surrogate. intros H.
  repeat match type of H with
         | context [N.ltb ?a ?b] => destruct (N.ltb_spec a b)
         | context [N.leb ?a ?b] => destruct (N.leb_spec a b)
         end; simpl in H; simplify_eq;
  repeat apply Forall_cons_2; try apply Forall_nil_2;
  repeat match goal with
         | |- context [(?a mod 64)%N] =>
             pose proof (N.mod_lt a 64 ltac:(lia)); generalize dependent (a mod 64)%N
         end; intros;
  try lia.
  - assert (c / 64 < 32)%N by (apply N.Div0.div_lt_upper_bound; lia). lia.
  - assert (c / 4096 < 16)%N by (apply N.Div0.div_lt_upper_bound; lia). lia.
  - assert (c / 4096 < 16)%N by (apply N.Div0.div_lt_upper_bound; lia). lia.
  - assert (c / 262144 < 5)%N by (apply N.Div0.div_lt_upper_bound; lia). lia.
Qed.

Lemma encode_utf8_bytes s bs :
  encode_utf8 s = inr bs -> Forall (fun b => (b < 256)%N) bs.
Proof.
  revert bs. induction s as [|c s IH]; simpl; intros bs H.
  - injection H as <-. apply Forall_nil_2.
  - destruct (utf8_char c) as [b|] eqn:Hc; [|done].
    destruct (encode_utf8 s) as [e|bs'] eqn:Hs; [done|].
    injection H as <-. apply Forall_app_2; [by eapply utf8_char_bytes|by apply IH].
Qed.

Lemma encode_utf8_encodable s :
  encodable_str s -> exists bs, encode_utf8 s = inr bs.
Proof.
  induction 1 as [|c s Hc Hs [bs IH]]; simpl; [by eexists|].
  destruct (utf8_char_encodable c Hc) as [b ->].
  rewrite IH. by eexists.
Qed.

Lemma encode_utf8_raises s e :
  encode_utf8 s = inl e -> ~ encodable_str s.
Proof.
  intros He Henc. destruct (encode_utf8_encodable s Henc) as [bs Hbs]. congruence.
Qed.

Lemma encodable_app a b : encodable_str a -> encodable_str b -> encodable_str (a ++ b).
Proof. apply Forall_app_2. Qed.



Lemma encodable_literal (s : string) :
  forallb encodable (str s) = true -> encodable_str (str s).
Proof. intros H. apply Forall_forall. intros c Hc. rewrite forallb_forall in H.
  apply H. by apply list_elem_of_In. Qed.

Lemma encodable_uint_codes d : encodable_str (uint_codes d).
Proof. induction d; simpl; constructor; done. Qed.

Lemma encodable_dec_N n : encodable_str (dec_N n).
Proof. apply encodable_uint_codes. Qed.

Lemma encodable_format_int q : encodable_str (format_int q).
Proof.
  unfold format_int. case_match; [constructor; [done|]|]; apply encodable_dec_N.
Qed.

Lemma encodable_small c : (c < 128)%N -> encodable c = true.
Proof.
  intros. unfold encodable, is_surrogate.
  destruct (N.ltb_spec c 1114112); [|lia].
  destruct (N.leb_spec 55296 c); [lia|done].
Qed.

Lemma encodable_two_digits c : (c < 100)%N -> encodable_str (two_digits c).
Proof.
  intros Hc. unfold two_digits.
  assert (c / 10 < 10)%N by (apply N.Div0.div_lt_upper_bound; lia).
  assert (c mod 10 < 10)%N by (apply N.mod_lt; lia).
  repeat constructor; apply encodable_small; lia.
Qed.

Lemma encodable_fmt2 x : encodable_str (fmt2 x).
Proof.
  destruct x as [s m e|[]|]; try (by apply encodable_literal).
  unfold fmt2. cbv zeta.
  repeat apply encodable_app.
  - destruct s; by repeat constructor.
  - apply encodable_dec_N.
  - by apply encodable_literal.
  - apply encodable_two_digits. apply N.mod_lt. lia.
Qed.




Lemma encodable_join sep lines :
  encodable_str sep -> Forall encodable_str lines -> encodable_str (join sep lines).
Proof.
  intros Hsep. induction 1 as [|l rest Hl Hrest IH]; simpl; [constructor|].
  destruct rest; [done|].
  repeat apply encodable_app; done.
Qed.






(** ** Reading amounts back *)

Lemma codes_uint_uint_codes d : codes_uint (uint_codes d) = Some d.
Proof. induction d; simpl; rewrite ?IHd; done. Qed.

Lemma uint_codes_digit d :
  d <> Nil -> exists c rest, uint_codes d = c :: rest /\ c <> DASH.
Proof. destruct d; intros Hd; try done; simpl; eexists _, _; split; done. Qed.

Lemma to_uint_not_Nil n : N.to_uint n <> Nil.
Proof.
  intros Hnil. pose proof (DecimalN.Unsigned.of_to n) as Hn.
  rewrite Hnil in Hn. simpl in Hn. subst n. discriminate.
Qed.

Lemma dec_N_digit n : exists c rest, dec_N n = c :: rest /\ c <> DASH.
Proof. apply uint_codes_digit, to_uint_not_Nil. Qed.

Lemma dec_value_dec_N n : dec_value (dec_N n) = Some n.
Proof.
  destruct (dec_N_digit n) as (c & rest & Heq & _).
  unfold dec_value. rewrite Heq, <- Heq. unfold dec_N.
  rewrite codes_uint_uint_codes. simpl. by rewrite DecimalN.Unsigned.of_to.
Qed.

Lemma dec_value_two_digits f : (f < 100)%N -> dec_value (two_digits f) = Some f.
Proof.
  intros Hf. unfold two_digits.
  pose proof (N.div_mod f 10 ltac:(lia)) as Hdm.
  assert (Ha : (f / 10 < 10)%N) by (apply N.Div0.div_lt_upper_bound; lia).
  assert (Hb : (f mod 10 < 10)%N) by (apply N.mod_lt; lia).
  rewrite Hdm at 3.
  generalize dependent (f / 10)%N. generalize dependent (f mod 10)%N.
  intros b Hb a _ Ha.
  assert (Hcases : forall x, (x < 10)%N ->
            x = 0%N \/ x = 1%N \/ x = 2%N \/ x = 3%N \/ x = 4%N \/
            x = 5%N \/ x = 6%N \/ x = 7%N \/ x = 8%N \/ x = 9%N) by lia.
  destruct (Hcases a Ha) as [->|[->|[->|[->|[->|[->|[->|[->|[->| ->]]]]]]]]];
  destruct (Hcases b Hb) as [->|[->|[->|[->|[->|[->|[->|[->|[->| ->]]]]]]]]];
  reflexivity.
Qed.

Lemma displayed_cents_fmt2 s m e :
  displayed_cents (fmt2 (Finite s m e))
  = Some (if s then - Z.of_N (hundredths m e) else Z.of_N (hundredths m e)).
Proof.
  unfold fmt2. cbv zeta. set (h := hundredths m e).
  assert (Hf : (h mod 100 < 100)%N) by (apply N.mod_lt; lia).
  pose proof (dec_value_two_digits _ Hf) as Hfrac.
  pose proof (dec_value_dec_N (h / 100)) as Hint.
  destruct (dec_N_digit (h / 100)) as (c & rest & Hdec & Hc).
  set (body := dec_N (h / 100) ++ str "." ++ two_digits (h mod 100)).
  assert (Hsplit : split_sign ((if s then [DASH] else []) ++ body) = (s, body)).
  { destruct s; simpl; [done|].
    unfold body. rewrite Hdec. simpl.
    destruct (N.eqb_spec c DASH); done. }
  unfold displayed_cents. rewrite Hsplit.
  assert (Hk : (length body - 3)%nat = length (dec_N (h / 100))).
  { unfold body. rewrite !length_app. simpl. lia. }
  rewrite Hk. unfold body.
  rewrite drop_app_length, take_app_length.
  unfold two_digits in *. simpl.
  rewrite Hint. simpl in Hfrac. rewrite Hfrac.
  pose proof (N.div_mod h 100 ltac:(lia)) as Hdm.
  replace (h `div` 100 * 100 + h `mod` 100)%N with h by lia.
  done.
Qed.

(** ** Amounts that are a whole number of hundredths *)







(** ** Frames of the computations *)

Section Frames.

Variable ESC_POS_AVAILABLE : bool.
Variable env : list call_record -> event -> option exn.
Variable P : event -> Prop.

Lemma adds_only_ret {A} (a : A) : adds_only P (ret a).
Proof. intros w. split; [done|]. exists []. by rewrite app_nil_r. Qed.

Lemma adds_only_raise {A} e : adds_only P (@raise A e).
Proof. intros w. split; [done|]. exists []. by rewrite app_nil_r. Qed.

Lemma adds_only_lift {A} (r : exn + A) : adds_only P (lift r).
Proof. destruct r; [apply adds_only_raise|apply adds_only_ret]. Qed.

Lemma adds_only_get_setting k d : adds_only P (get_setting k d).
Proof. intros w. split; [done|]. exists []. by rewrite app_nil_r. Qed.

Lemma adds_only_call ev : P ev -> adds_only P (call env ev).
Proof.
  intros Hev w. unfold call.
  destruct (env (trace w) ev) eqn:Hout; simpl;
    (split; [done|]); eexists; (split; [done|]); by apply Forall_singleton.
Qed.

Lemma adds_only_bind {A B} (m : M A) (k : A -> M B) :
  adds_only P m -> (forall a, adds_only P (k a)) -> adds_only P (bind m k).
Proof.
  intros Hm Hk w. unfold bind.
  destruct (Hm w) as (Hdb & new & Htr & Hnew).
  destruct (m w) as [[e|a] w'] eqn:Hmw; simpl in *.
  - split; [done|]. by exists new.
  - destruct (Hk a w') as (Hdb' & new' & Htr' & Hnew').
    split; [congruence|].
    exists (new ++ new'). split; [|by apply Forall_app_2].
    by rewrite Htr', Htr, app_assoc.
Qed.

Lemma adds_only_finally {A} (m : M A) (cleanup : M unit) :
  adds_only P m -> adds_only P cleanup -> adds_only P (finally m cleanup).
Proof.
  intros Hm Hc w. unfold finally.
  destruct (Hm w) as (Hdb & new & Htr & Hnew).
  destruct (m w) as [r w'] eqn:Hmw; simpl in *.
  destruct (Hc w') as (Hdb' & new' & Htr' & Hnew').
  destruct (cleanup w') as [[e|[]] w''] eqn:Hcw; simpl in *;
    (split; [congruence|]);
    exists (new ++ new'); (split; [|by apply Forall_app_2]);
    by rewrite Htr', Htr, app_assoc.
Qed.

Lemma adds_only_try_reraise {A} (m : M A) :
  adds_only P m -> adds_only P (try_reraise m).
Proof.
  intros Hm w. unfold try_reraise, raise.
  specialize (Hm w). by destruct (m w) as [[e|a] w'].
Qed.

Lemma adds_only_for_each {A} (xs : list A) (body : A -> M unit) :
  (forall x, adds_only P (body x)) -> adds_only P (for_each xs body).
Proof.
  intros Hbody. induction xs as [|x xs IH]; simpl.
  - apply adds_only_ret.
  - apply adds_only_bind; [apply Hbody|done].
Qed.

Lemma adds_only_new_calls {A} (m : M A) w :
  adds_only P m -> Forall (fun c : call_record => P c.1) (new_calls m w).
Proof.
  intros Hm. destruct (Hm w) as (_ & new & Htr & Hnew).
  unfold new_calls. by rewrite Htr, drop_app_length.
Qed.

Lemma adds_only_print_network ip port data :
  (forall ev, is_socket_event ev -> P ev) ->
  adds_only P (_print_network env ip port data).
Proof.
  intros HP. unfold _print_network, with_socket.
  apply adds_only_try_reraise.
  repeat first
    [ apply adds_only_bind; [|intros ?] | apply adds_only_finally
    | apply adds_only_ret | apply adds_only_call, HP; exact I ].
Qed.

Lemma adds_only_print_escpos_usb vendor product store items total payment :
  (forall ev, is_usb_command ev -> P ev) ->
  adds_only P
    (_print_escpos_usb ESC_POS_AVAILABLE env vendor product store items total payment).
Proof.
  intros HP. unfold _print_escpos_usb.
  destruct (negb ESC_POS_AVAILABLE); [apply adds_only_raise|].
  repeat first
    [ apply adds_only_bind; [|intros ?] | apply adds_only_for_each; intros ?
    | apply adds_only_ret | apply adds_only_call, HP; exact I ].
Qed.

Lemma adds_only_print_receipt store items total payment :
  (forall ev, is_socket_event ev \/ is_usb_command ev -> P ev) ->
  adds_only P (print_receipt ESC_POS_AVAILABLE env store items total payment).
Proof.
  intros HP. unfold print_receipt.
  repeat (apply adds_only_bind;
          [first [apply adds_only_get_setting | apply adds_only_lift]|intros ?]).
  repeat case_match;
    repeat (apply adds_only_bind; [apply adds_only_lift|intros ?]);
    first [ apply adds_only_print_network | apply adds_only_print_escpos_usb ];
    intros ev Hev; apply HP; tauto.
Qed.

End Frames.

(** ** The network transport *)

Ltac network_cases env :=
  unfold new_calls, _print_network, try_reraise, with_socket, finally, bind,
    call, ret, raise;
  simpl;
  repeat (match goal with
          | |- context [env ?t ?ev] => destruct (env t ev) eqn:?; simpl
          end);
  rewrite <- ?app_assoc, ?drop_app_length; simpl.

Ltac index_cases i :=
  repeat (destruct i as [|i]; simpl in *; simplify_eq; simpl in *; try done).

(** C5: the calls of [_print_network] are added to the trace; one
    socket is made; when it was made, it is closed, once, as the last
    call, whatever the calls in between raised; the timeout of 5 seconds
    is set before any connect or send; the only send carries the whole
    data; when no call fails the calls are socket, settimeout(5),
    connect, sendall, close; and the result is what the last failed call
    raised, or True when none failed. *)
Theorem print_network_closes env ip port data w :
  let calls := new_calls (_print_network env ip port data) w in
  trace (_print_network env ip port data w).2 = trace w ++ calls /\
  count_calls is_new calls = 1%nat /\
  ((SocketNew, None) ∈ calls ->
   last (events calls) = Some SocketClose /\ count_calls is_close calls = 1%nat) /\
  ((SocketNew, None) ∉ calls -> exists e, calls = [(SocketNew, Some e)]) /\
  (forall i c, calls !! i = Some c -> is_transfer c.1 ->
   calls !! 1%nat = Some (SocketSetTimeout 5, None) /\ (1 < i)%nat) /\
  (count_calls is_send calls <= 1)%nat /\
  (forall d o, (SocketSendAll d, o) ∈ calls -> d = data) /\
  (Forall succeeded calls ->
   events calls = [SocketNew; SocketSetTimeout 5; SocketConnect ip port;
                   SocketSendAll data; SocketClose]) /\
  (_print_network env ip port data w).1
  = match last_raised calls with Some e => inl e | None => inr true end.
Proof.
  intros calls. subst calls.
  network_cases env.
  all: split_and!; try done; try (simpl; lia).
  all: try (intros i c Hi Hc; index_cases i; (split; [done|lia])).
  all: try (intros Hall; rewrite !Forall_cons in Hall; unfold succeeded in Hall;
            simpl in Hall; destruct_and!; done).
  all: try (intros d o Hin; rewrite !elem_of_cons, elem_of_nil in Hin;
            destruct_or!; simplify_eq; done).
  all: try (intros Hin; rewrite !elem_of_cons, elem_of_nil in Hin;
            destruct_or!; simplify_eq; done).
  all: try (intros Hnot; first [by eexists | exfalso; apply Hnot; left]).
Qed.

Lemma print_network_closes_witness :
  last (events (new_calls (_print_network env_refused (str "192.168.0.100") 9100 [27%N; 64%N])
                  (world_of [])))
  = Some SocketClose.
Proof.
  apply (print_network_closes env_refused (str "192.168.0.100") 9100 [27%N; 64%N]
           (world_of [])).
  vm_compute. apply list_elem_of_here.
Defined.


(** ** The USB transport *)

(** C6: [_print_escpos_usb] only opens the device, prints and cuts: no
    call closes the device, neither when every command succeeds (as for
    the sale below) nor when one raises. *)
Theorem print_escpos_usb_never_closes avail env vendor product store items total
    payment w :
  (UsbClose ∉ events (new_calls
                        (_print_escpos_usb avail env vendor product store items total payment)
                        w)) /\
  (_print_escpos_usb true env_ok 1208 514 burger_store [(1, str "A", f_5)] f_5
     (str "Dinheiro") (world_of [])).1 = inr true /\
  events (new_calls
            (_print_escpos_usb true env_ok 1208 514 burger_store [(1, str "A", f_5)] f_5
               (str "Dinheiro"))
            (world_of []))
  = [UsbOpen 1208 514;
     UsbText (str "Burger House" ++ [NEWLINE]);
     UsbText (separator ++ [NEWLINE]);
     UsbText (str "1x A - 5.00" ++ [NEWLINE]);
     UsbText (separator ++ [NEWLINE]);
     UsbText (str "TOTAL: 5.00" ++ [NEWLINE]);
     UsbText (str "Pagamento: Dinheiro" ++ [NEWLINE]);
     UsbCut].
Proof.
  split_and!; [|vm_compute; reflexivity..].
  pose proof (adds_only_new_calls is_usb_command _ w
                (adds_only_print_escpos_usb avail env is_usb_command vendor product
                   store items total payment (fun _ H => H))) as Hall.
  intros Hin. unfold events in Hin.
  apply list_elem_of_fmap in Hin as (c & Hc & Hin).
  rewrite Forall_forall in Hall. specialize (Hall c Hin).
  rewrite <- Hc in Hall. exact Hall.
Qed.

(** ** The dispatcher *)









(** ** The settings are only read *)

Section Settings.

Variable ESC_POS_AVAILABLE : bool.
Variable env : list call_record -> event -> option exn.

Lemma ignores_ret {A} (a : A) : ignores_settings (ret a).
Proof. intros t. by exists (inr a), t. Qed.

Lemma ignores_raise {A} e : ignores_settings (@raise A e).
Proof. intros t. by exists (inl e), t. Qed.

Lemma ignores_lift {A} (r : exn + A) : ignores_settings (lift r).
Proof. destruct r; [apply ignores_raise|apply ignores_ret]. Qed.

Lemma ignores_call ev : ignores_settings (call env ev).
Proof.
  intros t. unfold call. simpl.
  destruct (env t ev) as [e|]; eexists _, _; intros d; reflexivity.
Qed.

Lemma ignores_bind {A B} (m : M A) (k : A -> M B) :
  ignores_settings m -> (forall a, ignores_settings (k a)) ->
  ignores_settings (bind m k).
Proof.
  intros Hm Hk t. destruct (Hm t) as ([e|a] & t' & Hrun).
  - exists (inl e), t'. intros d. unfold bind. by rewrite Hrun.
  - destruct (Hk a t') as (r & t'' & Hrun').
    exists r, t''. intros d. unfold bind. by rewrite Hrun.
Qed.

Lemma ignores_finally {A} (m : M A) (cleanup : M unit) :
  ignores_settings m -> ignores_settings cleanup ->
  ignores_settings (finally m cleanup).
Proof.
  intros Hm Hc t. destruct (Hm t) as (r & t' & Hrun).
  destruct (Hc t') as ([e|[]] & t'' & Hrun').
  - exists (inl e), t''. intros d. unfold finally. by rewrite Hrun, Hrun'.
  - exists r, t''. intros d. unfold finally. by rewrite Hrun, Hrun'.
Qed.

Lemma ignores_try_reraise {A} (m : M A) :
  ignores_settings m -> ignores_settings (try_reraise m).
Proof.
  intros Hm t. destruct (Hm t) as (r & t' & Hrun).
  exists r, t'. intros d. unfold try_reraise, raise. rewrite Hrun. by destruct r.
Qed.

Lemma ignores_for_each {A} (xs : list A) (body : A -> M unit) :
  (forall x, ignores_settings (body x)) -> ignores_settings (for_each xs body).
Proof.
  intros Hbody. induction xs as [|x xs IH]; simpl.
  - apply ignores_ret.
  - apply ignores_bind; [apply Hbody|done].
Qed.

Lemma ignores_print_network ip port data :
  ignores_settings (_print_network env ip port data).
Proof.
  unfold _print_network, with_socket.
  apply ignores_try_reraise.
  repeat first
    [ apply ignores_bind; [|intros ?] | apply ignores_finally
    | apply ignores_ret | apply ignores_call ].
Qed.

Lemma ignores_print_escpos_usb vendor product store items total payment :
  ignores_settings
    (_print_escpos_usb ESC_POS_AVAILABLE env vendor product store items total payment).
Proof.
  unfold _print_escpos_usb.
  destruct (negb ESC_POS_AVAILABLE); [apply ignores_raise|].
  repeat first
    [ apply ignores_bind; [|intros ?] | apply ignores_for_each; intros ?
    | apply ignores_ret | apply ignores_call ].
Qed.

Lemma ignores_dispatch store items total payment mode ip port_text vendor product :
  ignores_settings
    (dispatch ESC_POS_AVAILABLE env store items total payment mode ip port_text
       vendor product).
Proof.
  unfold dispatch.
  apply ignores_bind; [apply ignores_lift|intros port].
  apply ignores_bind; [apply ignores_lift|intros text].
  repeat case_match;
    repeat (apply ignores_bind; [apply ignores_lift|intros ?]);
    first [ apply ignores_print_network | apply ignores_print_escpos_usb ].
Qed.

Lemma print_receipt_dispatch store items total payment w :
  print_receipt ESC_POS_AVAILABLE env store items total payment w
  = dispatch ESC_POS_AVAILABLE env store items total payment
      (dict_get (db_settings w) (str "printer_mode") (str "network"))
      (dict_get (db_settings w) (str "printer_ip") (str "192.168.0.100"))
      (dict_get (db_settings w) (str "printer_port") (str "9100"))
      (dict_get (db_settings w) (str "printer_usb_vendor") [])
      (dict_get (db_settings w) (str "printer_usb_product") [])
      w.
Proof.
  unfold print_receipt, dispatch, get_setting, bind. simpl.
  destruct (py_int _ 10) as [e|port]; simpl; [done|].
  destruct (_build_text store items total payment) as [e|text]; simpl; done.
Qed.

End Settings.

Lemma dict_get_agree (db db' : gmap (list N) (list N)) k d :
  db' !! k = db !! k -> dict_get db' k d = dict_get db k d.
Proof. unfold dict_get. by intros ->. Qed.

(** C10: [print_receipt] leaves the database (settings, products and
    sales) as it was, whatever the transports do, and the settings it
    depends on are the printer mode, ip, port, vendor and product: two
    worlds with the same trace and the same values under these five keys
    give the same result and the same calls. *)
Theorem print_receipt_keeps_settings avail env store items total payment w :
  db (print_receipt avail env store items total payment w).2 = db w /\
  (forall w',
     trace w' = trace w ->
     (forall k, k ∈ printer_keys -> db_settings w' !! k = db_settings w !! k) ->
     (print_receipt avail env store items total payment w').1
     = (print_receipt avail env store items total payment w).1 /\
     trace (print_receipt avail env store items total payment w').2
     = trace (print_receipt avail env store items total payment w).2).
Proof.
  split.
  - apply (adds_only_print_receipt avail env (fun _ => True)). done.
  - intros w' Htrace Hkeys.
    rewrite !print_receipt_dispatch.
    rewrite !(dict_get_agree (db_settings w) (db_settings w'))
      by (apply Hkeys; unfold printer_keys; set_solver).
    destruct w as [d t], w' as [d' t']. simpl in *. subst t'.
    destruct (ignores_dispatch avail env store items total payment
                (dict_get (settings d) (str "printer_mode") (str "network"))
                (dict_get (settings d) (str "printer_ip") (str "192.168.0.100"))
                (dict_get (settings d) (str "printer_port") (str "9100"))
                (dict_get (settings d) (str "printer_usb_vendor") [])
                (dict_get (settings d) (str "printer_usb_product") []) t)
      as (r & t' & Hrun).
    by rewrite !Hrun.
Qed.

Lemma print_receipt_keeps_settings_witness :
  (print_receipt true env_ok burger_store [] f_30 (str "Dinheiro")
     (World (Database [] [] (<[str "store_name" := str "Burger House"]>
                                 (settings_of usb_settings))) [])).1
  = (print_receipt true env_ok burger_store [] f_30 (str "Dinheiro")
       (world_of usb_settings)).1.
Proof.
  apply (print_receipt_keeps_settings true env_ok burger_store [] f_30 (str "Dinheiro")
           (world_of usb_settings)).
  - reflexivity.
  - intros k Hk. apply lookup_insert_ne. intros <-.
    unfold printer_keys in Hk. rewrite !elem_of_cons, elem_of_nil in Hk.
    destruct_or!; try done; vm_compute in Hk; discriminate.
Defined.

(** [set_setting], by contrast, does change the settings. *)
Example set_setting_changes :
  db_settings (set_setting (str "printer_port") (str "9101") (world_of [])).2
  <> db_settings (world_of []).
Proof.
  intros Heq.
  assert (Hl : db_settings (set_setting (str "printer_port") (str "9101") (world_of [])).2
               !! str "printer_port" = None) by (rewrite Heq; done).
  vm_compute in Hl. discriminate.
Qed.


(** * Further properties *)

(** ** Sequencing *)

Lemma bind_assoc {A B C} (m : M A) (f : A -> M B) (g : B -> M C) w :
  bind (bind m f) g w = bind m (fun a => bind (f a) g) w.
Proof. unfold bind. by destruct (m w) as [[e|a] w']. Qed.

Lemma bind_congr {A B} (m : M A) (k1 k2 : A -> M B) w :
  (forall a w', k1 a w' = k2 a w') -> bind m k1 w = bind m k2 w.
Proof. intros H. unfold bind. destruct (m w) as [[e|a] w']; [done|apply H]. Qed.

Lemma bind_ret_l {A B} (a : A) (k : A -> M B) w : bind (ret a) k w = k a w.
Proof. done. Qed.

Lemma call_all_cons env ev evs w :
  call_all env (ev :: evs) w = (call env ev >> call_all env evs) w.
Proof. done. Qed.

Lemma call_all_app_bind {A} env evs1 evs2 (k : M A) w :
  (call_all env (evs1 ++ evs2) >> k) w
  = (call_all env evs1 >> (call_all env evs2 >> k)) w.
Proof.
  revert w. induction evs1 as [|ev evs1 IH]; intros w; [done|].
  simpl. unfold call_all in *. simpl.
  rewrite !bind_assoc. unfold bind at 1 3.
  destruct (call env ev w) as [[e|[]] w']; [done|]. apply IH.
Qed.

Lemma for_each_call_fmap {A B} env (f : A -> event) (xs : list A) (k : M B) w :
  (for_each xs (fun x => call env (f x)) >> k) w = (call_all env (f <$> xs) >> k) w.
Proof.
  revert w. induction xs as [|x xs IH]; intros w; [done|].
  rewrite fmap_cons. unfold call_all in *. simpl.
  rewrite !bind_assoc. unfold bind at 1 3.
  destruct (call env (f x) w) as [[e|[]] w']; [done|]. apply IH.
Qed.

Lemma call_all_run {A} env evs (k : M A) w :
  (call_all env evs >> k) w
  = match last_raised (script_calls env (trace w) evs) with
    | Some e => (inl e, World (db w) (trace w ++ script_calls env (trace w) evs))
    | None => k (World (db w) (trace w ++ script_calls env (trace w) evs))
    end.
Proof.
  revert w. induction evs as [|ev evs IH]; intros [d t]; simpl.
  - by rewrite app_nil_r.
  - unfold call_all in *. simpl. rewrite bind_assoc. unfold bind at 1, call at 1.
    simpl. destruct (env t ev) as [e|]; simpl; [done|].
    rewrite IH. simpl. rewrite <- app_assoc. simpl.
    by destruct (last_raised (script_calls env (t ++ [(ev, None)]) evs)).
Qed.

Lemma script_calls_prefix env t evs :
  events (script_calls env t evs) `prefix_of` evs.
Proof.
  revert t. induction evs as [|ev evs IH]; intros t; simpl; [done|].
  destruct (env t ev) as [e|].
  - by apply prefix_cons, prefix_nil.
  - unfold events in *. simpl. by apply prefix_cons.
Qed.

Lemma script_calls_all_ok env t evs :
  last_raised (script_calls env t evs) = None <->
  events (script_calls env t evs) = evs /\ Forall succeeded (script_calls env t evs).
Proof.
  revert t. induction evs as [|ev evs IH]; intros t; simpl; [done|].
  destruct (env t ev) as [e|]; simpl.
  - split; [done|]. intros [_ Hall]. by apply Forall_cons_1 in Hall as [Hbad _].
  - specialize (IH (t ++ [(ev, None)])).
    destruct (last_raised (script_calls env (t ++ [(ev, None)]) evs)) as [e|] eqn:Hlast.
    + split; [done|]. intros [Hev Hall]. unfold events in *. simpl in Hev.
      injection Hev as Hev. apply Forall_cons_1 in Hall as [_ Hall].
      by destruct IH as [_ IH]; specialize (IH (conj Hev Hall)).
    + destruct IH as [IH _]. destruct (IH eq_refl) as [Hev Hall].
      split; [|done]. intros _. split.
      * unfold events in *. simpl. by f_equal.
      * by apply Forall_cons_2.
Qed.

Lemma script_calls_failure env t evs e :
  last_raised (script_calls env t evs) = Some e <->
  exists before ev,
    script_calls env t evs = before ++ [(ev, Some e)] /\ Forall succeeded before.
Proof.
  revert t. induction evs as [|ev evs IH]; intros t; simpl.
  - split; [done|]. intros (before & ev & Heq & _). by destruct before.
  - destruct (env t ev) as [e'|]; simpl.
    + split.
      * intros [= ->]. by exists [], ev.
      * intros (before & ev' & Heq & Hall).
        destruct before as [|c before]; simpl in Heq; [by injection Heq as _ ->|].
        injection Heq as _ Heq. by destruct before.
    + specialize (IH (t ++ [(ev, None)])).
      destruct (last_raised (script_calls env (t ++ [(ev, None)]) evs)) as [e'|] eqn:Hlast.
      * split.
        -- intros [= ->]. destruct IH as [IH _].
           destruct (IH eq_refl) as (before & ev' & Heq & Hall).
           exists ((ev, None) :: before), ev'. rewrite Heq. split; [done|].
           by apply Forall_cons_2.
        -- intros (before & ev' & Heq & Hall).
           destruct before as [|c before]; simpl in Heq; [done|].
           injection Heq as <- Heq. apply Forall_cons_1 in Hall as [_ Hall].
           apply IH. eauto.
      * split; [done|].
        intros (before & ev' & Heq & Hall).
        destruct before as [|c before]; simpl in Heq; [done|].
        injection Heq as <- Heq. apply Forall_cons_1 in Hall as [_ Hall].
        assert (None = Some e) by (apply IH; eauto). done.
Qed.

(** ** The USB transport, command by command *)

Lemma print_escpos_usb_run env vendor product store items total payment w :
  _print_escpos_usb true env vendor product store items total payment w
  = (match last_raised
             (script_calls env (trace w)
                (usb_script vendor product store items total payment)) with
     | Some e => inl e
     | None => inr true
     end,
     World (db w)
       (trace w ++ script_calls env (trace w)
                     (usb_script vendor product store items total payment))).
Proof.
  transitivity
    ((call_all env (usb_script vendor product store items total payment) >> ret true) w).
  2: { rewrite call_all_run. by destruct (last_raised _). }
  unfold usb_script. rewrite !call_all_app_bind.
  unfold _print_escpos_usb, call_all. cbn [for_each negb].
  do 3 (rewrite ?bind_assoc; apply bind_congr; intros [] ?).
  rewrite bind_ret_l.
  rewrite (for_each_call_fmap env (fun it => UsbText (usb_item_text it))).
  fold (call_all env
          (((fun it => UsbText (usb_item_text it)) <$> items)
           ++ [UsbText (separator ++ [NEWLINE]);
               UsbText (str "TOTAL: " ++ fmt2 total ++ [NEWLINE]);
               UsbText (str "Pagamento: " ++ payment ++ [NEWLINE]); UsbCut])).
  rewrite call_all_app_bind.
  apply bind_congr; intros [] ?.
  unfold call_all. cbn [for_each].
  do 4 (rewrite ?bind_assoc; apply bind_congr; intros [] ?).
  done.
Qed.

Lemma new_calls_app {A} (m : M A) w calls :
  trace (m w).2 = trace w ++ calls -> new_calls m w = calls.
Proof. intros H. unfold new_calls. by rewrite H, drop_app_length. Qed.

(** X1: the USB transport sends its commands in the order of the
    source and stops right after the first command that raises: the
    calls made are a beginning of the whole sequence (open, store name,
    separator, one line per item, separator, total, payment, cut), every
    call before the last one succeeded, the result is True exactly when
    the whole sequence including the cut went through, and otherwise it
    is the exception of the last call made. *)
Theorem print_escpos_usb_in_order env vendor product store items total payment w :
  let result := (_print_escpos_usb true env vendor product store items total payment w).1 in
  let calls :=
    new_calls (_print_escpos_usb true env vendor product store items total payment) w in
  let script := usb_script vendor product store items total payment in
  trace (_print_escpos_usb true env vendor product store items total payment w).2
  = trace w ++ calls /\
  events calls `prefix_of` script /\
  (result = inr true <-> events calls = script /\ Forall succeeded calls) /\
  (forall e, result = inl e <->
             exists before ev, calls = before ++ [(ev, Some e)] /\ Forall succeeded before).
Proof.
  intros result calls script. subst result calls.
  rewrite (new_calls_app _ w (script_calls env (trace w) script))
    by by rewrite print_escpos_usb_run.
  rewrite print_escpos_usb_run. fold script. cbn [fst snd trace].
  split_and!; [done|apply script_calls_prefix|..].
  - rewrite <- script_calls_all_ok. by destruct (last_raised _).
  - intros e. rewrite <- script_calls_failure.
    destruct (last_raised _); split; congruence.
Qed.

Lemma count_calls_none kind env t evs :
  Forall (fun ev => kind ev = false) evs ->
  count_calls kind (script_calls env t evs) = 0%nat.
Proof.
  intros Hall. revert t. induction Hall as [|ev evs Hev _ IH]; intros t; simpl; [done|].
  destruct (env t ev); simpl; rewrite Hev; [done|apply IH].
Qed.

Lemma count_calls_first kind env t ev evs :
  kind ev = true ->
  Forall (fun ev' => kind ev' = false) evs ->
  count_calls kind (script_calls env t (ev :: evs)) = 1%nat.
Proof.
  intros Hev Hall. cbn [script_calls].
  destruct (env t ev); cbn [count_calls fst]; rewrite Hev; [done|].
  by rewrite count_calls_none.
Qed.

Lemma usb_script_opens_once env t vendor product store items total payment :
  (count_calls is_usb_open
     (script_calls env t (usb_script vendor product store items total payment)) <= 1)%nat.
Proof.
  unfold usb_script. cbn [app].
  rewrite count_calls_first; [lia|done|].
  do 2 (apply Forall_cons_2; [done|]).
  apply Forall_app_2; [|by repeat apply Forall_cons_2].
  apply Forall_fmap, Forall_forall. by intros it _.
Qed.

Lemma print_network_one_socket env ip port data w :
  count_calls is_new (new_calls (_print_network env ip port data) w) = 1%nat.
Proof. network_cases env; done. Qed.

Lemma usb_selected_available avail mode vendor product :
  usb_selected avail mode vendor product = true ->
  avail = true /\ mode = str "escpos_usb" /\ vendor <> [] /\ product <> [].
Proof.
  unfold usb_selected. intros H.
  apply andb_prop in H as [H Hp]. apply andb_prop in H as [H Hv].
  apply andb_prop in H as [Hm Ha]. apply bool_decide_eq_true in Hm.
  split_and!; try done.
  - by destruct vendor.
  - by destruct product.
Qed.

(** X2: one call of [print_receipt] uses one transport and tries it
    once.  Either every call it makes is a socket call and at most one
    socket is made, or every call is a USB command, at most one device
    is opened and the ESC/POS backend is available; a failed USB print
    is never sent to the network, and nothing is tried again. *)
Theorem print_receipt_single_transport avail env store items total payment w :
  let calls := new_calls (print_receipt avail env store items total payment) w in
  (Forall (fun c : call_record => is_socket_event c.1) calls /\
   (count_calls is_new calls <= 1)%nat) \/
  (Forall (fun c : call_record => is_usb_command c.1) calls /\
   (count_calls is_usb_open calls <= 1)%nat /\
   avail = true).
Proof.
  intros calls. subst calls. unfold new_calls.
  rewrite print_receipt_dispatch. unfold dispatch.
  set (mode := dict_get _ (str "printer_mode") _).
  set (ip := dict_get _ (str "printer_ip") _).
  set (vendor := dict_get _ (str "printer_usb_vendor") _).
  set (product := dict_get _ (str "printer_usb_product") _).
  assert (Hnone : forall e : exn,
            Forall (fun c : call_record => is_socket_event c.1)
              (drop (length (trace w)) (trace (inl e : exn + bool, w).2)) /\
            (count_calls is_new (drop (length (trace w))
                                   (trace (inl e : exn + bool, w).2)) <= 1)%nat).
  { intros e. simpl. rewrite drop_all. split; [apply Forall_nil_2|simpl; lia]. }
  assert (Hnet : forall port text,
            Forall (fun c : call_record => is_socket_event c.1)
              (new_calls (_print_network env ip port text) w) /\
            (count_calls is_new (new_calls (_print_network env ip port text) w) <= 1)%nat).
  { intros port text. split.
    - apply adds_only_new_calls. by apply adds_only_print_network.
    - by rewrite print_network_one_socket. }
  unfold bind at 1. destruct (py_int _ 10) as [e|port]; cbn [lift raise ret];
    [left; apply Hnone|].
  unfold bind at 1.
  destruct (_build_text store items total payment) as [e|text]; cbn [lift raise ret];
    [left; apply Hnone|].
  destruct (bool_decide (mode = str "network")); [left; apply Hnet|].
  destruct (usb_selected avail mode vendor product) eqn:Husb; [|left; apply Hnet].
  apply usb_selected_available in Husb as (-> & _).
  unfold bind at 1. destruct (py_int vendor 16) as [e|v]; cbn [lift raise ret];
    [left; apply Hnone|].
  unfold bind at 1. destruct (py_int product 16) as [e|p]; cbn [lift raise ret];
    [left; apply Hnone|].
  right. rewrite !bind_ret_l, print_escpos_usb_run. cbn [snd trace].
  rewrite drop_app_length. split_and!; [|apply usb_script_opens_once|done].
  pose proof (adds_only_new_calls is_usb_command _ w
                (adds_only_print_escpos_usb true env is_usb_command v p
                   store items total payment (fun _ H => H))) as Hall.
  unfold new_calls in Hall. rewrite print_escpos_usb_run in Hall. cbn [snd trace] in Hall.
  by rewrite drop_app_length in Hall.
Qed.






(** ** [str] of an int, read back by [int] *)

Lemma lstrip_no_space s :
  Forall (fun c => is_space c = false) s -> lstrip s = s.
Proof. destruct 1 as [|c s Hc _]; simpl; [done|by rewrite Hc]. Qed.

Lemma strip_no_space s :
  Forall (fun c => is_space c = false) s -> strip s = s.
Proof.
  intros Hs. unfold strip. rewrite (lstrip_no_space s Hs).
  rewrite lstrip_no_space by by apply Forall_reverse.
  apply reverse_involutive.
Qed.

Lemma uint_codes_no_space d : Forall (fun c => is_space c = false) (uint_codes d).
Proof. induction d; simpl; by constructor. Qed.

Lemma digits_value_acc d acc :
  digits_value 10 (uint_codes d) false (Z.pos acc) = Some (Z.pos (Pos.of_uint_acc d acc)).
Proof.
  revert acc. induction d; intros acc; simpl; [done|..];
    match goal with
    | |- digits_value _ _ _ ?z = _ =>
        match goal with
        | |- _ = Some (Z.pos (Pos.of_uint_acc _ ?p)) =>
            replace z with (Z.pos p) by lia
        end
    end; apply IHd.
Qed.

Lemma digits_value_uint d :
  digits_value 10 (uint_codes d) false 0 = Some (Z.of_N (N.of_uint d)).
Proof.
  induction d; simpl; try done; apply (digits_value_acc d).
Qed.

Lemma int_literal_uint d :
  d <> Nil -> int_literal (uint_codes d) 10 = Some (Z.of_N (N.of_uint d)).
Proof.
  intros Hd. pose proof (digits_value_uint d) as Hval.
  destruct d as [|d|d|d|d|d|d|d|d|d|d]; try done;
    unfold int_literal; cbn [uint_codes];
    try (cbn [uint_codes] in Hval; by rewrite Hval).
  destruct (uint_codes d) as [|x r] eqn:Hrest;
    cbn [uint_codes] in Hval; rewrite Hrest in Hval.
  - done.
  - cbv beta iota zeta. change (10 =? 16) with false. cbn [andb].
    change (48 =? UNDERSCORE)%N with false. cbv beta iota. by rewrite Hval.
Qed.

Lemma py_int_dec_N n : py_int (dec_N n) 10 = inr (Z.of_N n).
Proof.
  unfold py_int, dec_N. rewrite strip_no_space by apply uint_codes_no_space.
  rewrite int_literal_uint by apply to_uint_not_Nil.
  by rewrite DecimalN.Unsigned.of_to.
Qed.

Lemma int_literal_negative d :
  d <> Nil ->
  int_literal (DASH :: uint_codes d) 10 = Some (- Z.of_N (N.of_uint d)).
Proof.
  intros Hd. pose proof (digits_value_uint d) as Hval. unfold DASH.
  destruct d as [|d|d|d|d|d|d|d|d|d|d]; try done;
    unfold int_literal; cbn [uint_codes];
    try (cbn [uint_codes] in Hval; by rewrite Hval).
  destruct (uint_codes d) as [|x r] eqn:Hrest;
    cbn [uint_codes] in Hval; rewrite Hrest in Hval;
    cbv beta iota zeta; change (10 =? 16) with false; cbn [andb];
    change (48 =? UNDERSCORE)%N with false; cbv beta iota; by rewrite Hval.
Qed.

(** X5: [int] reads back what [str] writes of an int: the iid
    [str(pid)] that the product lists give to a row is turned back into
    [pid] by [int(sel[0])], for every int, negative ones included. *)
Theorem py_int_format_int z : py_int (format_int z) 10 = inr z.
Proof.
  unfold format_int. destruct (Z.ltb_spec z 0) as [Hneg|Hpos].
  - unfold py_int, dec_N. rewrite strip_no_space
      by (apply Forall_cons_2; [done|apply uint_codes_no_space]).
    rewrite int_literal_negative by apply to_uint_not_Nil.
    rewrite DecimalN.Unsigned.of_to. f_equal. lia.
  - rewrite py_int_dec_N. f_equal. lia.
Qed.


(** ** The settings table *)

(** X6: a setting that was saved is what [get_setting] returns, whatever
    the default asked for, also when the saved text is empty; saving
    one key changes no other setting, no product, no sale and no device
    call. *)
Theorem get_setting_after_set k v d w :
  encodable_str k -> encodable_str v ->
  (get_setting k d (set_setting k v w).2).1 = inr v /\
  (forall k' d', k' <> k ->
     (get_setting k' d' (set_setting k v w).2).1 = (get_setting k' d' w).1) /\
  products (db (set_setting k v w).2) = products (db w) /\
  sales (db (set_setting k v w).2) = sales (db w) /\
  trace (set_setting k v w).2 = trace w.
Proof.
  intros _ _. unfold get_setting, set_setting, dict_get, db_settings. simpl.
  split_and!; try done.
  - by rewrite lookup_insert_eq.
  - intros k' d' Hne. by rewrite lookup_insert_ne.
Qed.

Lemma get_setting_after_set_witness :
  (get_setting (str "printer_port") (str "9100")
     (set_setting (str "printer_port") [] (world_of [])).2).1 = inr [].
Proof.
  apply (get_setting_after_set (str "printer_port") [] (str "9100") (world_of [])).
  - by apply encodable_literal.
  - apply Forall_nil_2.
Defined.

(** X7: the last value saved under a key wins, as INSERT OR REPLACE on
    the primary key does, and settings saved under different keys do
    not depend on the order in which they are saved. *)
Theorem set_setting_last_wins k1 v1 k2 v2 w :
  encodable_str k1 -> encodable_str v1 -> encodable_str k2 -> encodable_str v2 ->
  (set_setting k1 v2 (set_setting k1 v1 w).2).2 = (set_setting k1 v2 w).2 /\
  (k1 <> k2 ->
   (set_setting k2 v2 (set_setting k1 v1 w).2).2
   = (set_setting k1 v1 (set_setting k2 v2 w).2).2).
Proof.
  intros _ _ _ _. unfold set_setting, db_settings. simpl. split.
  - by rewrite insert_insert_eq.
  - intros Hne. by rewrite insert_insert_ne.
Qed.

Lemma set_setting_last_wins_witness :
  (set_setting (str "printer_ip") (str "10.0.0.2")
     (set_setting (str "printer_ip") (str "10.0.0.1") (world_of [])).2).2
  = (set_setting (str "printer_ip") (str "10.0.0.2") (world_of [])).2.
Proof.
  apply (set_setting_last_wins (str "printer_ip") (str "10.0.0.1")
           (str "printer_ip") (str "10.0.0.2") (world_of []));
    by apply encodable_literal.
Defined.

(** ** The sales table *)

Lemma foldr_max_ge (ids : list Z) x : x ∈ ids -> x <= foldr Z.max 0 ids.
Proof.
  induction ids as [|y ids IH]; simpl; [by intros ?%elem_of_nil|].
  intros [->|Hin]%elem_of_cons; [lia|]. specialize (IH Hin). lia.
Qed.

Lemma next_id_fresh (ids : list Z) : (next_id ids ∉ ids) /\ 0 < next_id ids.
Proof.
  unfold next_id. split.
  - intros Hin%foldr_max_ge. lia.
  - assert (0 <= foldr Z.max 0 ids) by (induction ids; simpl; lia). lia.
Qed.

Lemma encodable_sale_line it :
  encodable_str it.1.2 -> encodable_str (sale_line it).
Proof.
  destruct it as [[q n] p]. intros Hn. unfold sale_line.
  repeat apply encodable_app; try done.
  - apply encodable_format_int.
  - by apply encodable_literal.
  - by apply encodable_literal.
  - apply encodable_fmt2.
Qed.

Lemma save_sale_stores ts items total payment w :
  encodable_str ts -> encodable_str payment ->
  Forall (fun it : cart_line => encodable_str it.1.2) items ->
  int64 (next_id (sale_id <$> sales (db w))) = true ->
  save_sale ts items total payment w
  = (inr tt,
     World
       (Database (products (db w))
          (sales (db w)
           ++ [(next_id (sale_id <$> sales (db w)), ts, total, payment,
                join [NEWLINE] (sale_line <$> items))])
          (settings (db w)))
       (trace w)).
Proof.
  intros Hts Hpay Hitems Hroom. unfold save_sale. rewrite Hroom. cbn [negb].
  destruct (encode_utf8_encodable ts Hts) as [b1 ->].
  destruct (encode_utf8_encodable payment Hpay) as [b2 ->].
  assert (Htext : encodable_str (join [NEWLINE] (sale_line <$> items))).
  { apply encodable_join; [by apply Forall_singleton|].
    apply Forall_fmap. eapply Forall_impl; [exact Hitems|].
    intros it. apply encodable_sale_line. }
  by destruct (encode_utf8_encodable _ Htext) as [b3 ->].
Qed.

(** X8: [save_sale] adds one row after the rows that are there, with
    the time, the total, the payment and one line of text per cart line;
    the id of the new row is positive and larger than every id in the
    table, so ids that were distinct stay distinct; the earlier sales,
    the products, the settings and the trace are left as they were.
    The texts are ones that SQLite can store (UTF-8 can encode them)
    and the table has an id left for the new row. *)
Theorem save_sale_appends ts items total payment w :
  encodable_str ts -> encodable_str payment ->
  Forall (fun it : cart_line => encodable_str it.1.2) items ->
  int64 (next_id (sale_id <$> sales (db w))) = true ->
  let w' := (save_sale ts items total payment w).2 in
  let new_id := next_id (sale_id <$> sales (db w)) in
  (save_sale ts items total payment w).1 = inr tt /\
  sales (db w')
  = sales (db w) ++ [(new_id, ts, total, payment, join [NEWLINE] (sale_line <$> items))] /\
  0 < new_id /\
  Forall (fun r => sale_id r < new_id) (sales (db w)) /\
  (NoDup (sale_id <$> sales (db w)) -> NoDup (sale_id <$> sales (db w'))) /\
  products (db w') = products (db w) /\
  settings (db w') = settings (db w) /\
  trace w' = trace w.
Proof.
  intros Hts Hpay Hitems Hroom w' new_id. subst w'.
  rewrite (save_sale_stores ts items total payment w Hts Hpay Hitems Hroom).
  cbn [fst snd db sales products settings trace].
  fold new_id. split_and!; try done.
  - apply next_id_fresh.
  - apply Forall_forall. intros r Hr.
    assert (sale_id r ∈ sale_id <$> sales (db w)) as Hin%foldr_max_ge
      by (apply list_elem_of_fmap; eauto).
    unfold new_id, next_id. lia.
  - intros Hnd. rewrite fmap_app. apply NoDup_app. split_and!; [done| |].
    + intros x Hx [->|[]%elem_of_nil]%elem_of_cons.
      by apply (next_id_fresh (sale_id <$> sales (db w))).
    + apply NoDup_singleton.
Qed.

Lemma save_sale_appends_witness :
  sales (db (save_sale (str "2024-01-01 10:00:00") [(1, str "A", f_5)] f_5
               (str "Dinheiro") (world_of [])).2)
  = [(1, str "2024-01-01 10:00:00", f_5, str "Dinheiro", str "1x A - 5.00")].
Proof.
  apply (save_sale_appends (str "2024-01-01 10:00:00") [(1, str "A", f_5)] f_5
           (str "Dinheiro") (world_of [])).
  - by apply encodable_literal.
  - by apply encodable_literal.
  - apply Forall_cons_2; [by apply encodable_literal | apply Forall_nil_2].
  - reflexivity.
Defined.

(** ** The configuration tab *)

Ltac distinct_keys := intros Hkeys; vm_compute in Hkeys; discriminate.

Lemma save_config_world a :
  app_world (_save_config a)
  = World
      (Database (products (db (app_world a))) (sales (db (app_world a)))
         (<[str "printer_usb_product" := e_usb_product (form a)]>
            (<[str "printer_usb_vendor" := e_usb_vendor (form a)]>
               (<[str "printer_port" := e_printer_port (form a)]>
                  (<[str "printer_ip" := e_printer_ip (form a)]>
                     (<[str "printer_mode" := pm_var (form a)]>
                        (<[str "store_phone" := e_store_phone (form a)]>
                           (<[str "store_address" := e_store_addr (form a)]>
                              (<[str "store_name" := e_store_name (form a)]>
                                 (db_settings (app_world a)))))))))))
      (trace (app_world a)).
Proof. reflexivity. Qed.

Lemma save_config_lookups a :
  let s := db_settings (app_world (_save_config a)) in
  s !! str "store_name" = Some (e_store_name (form a)) /\
  s !! str "store_address" = Some (e_store_addr (form a)) /\
  s !! str "store_phone" = Some (e_store_phone (form a)) /\
  s !! str "printer_mode" = Some (pm_var (form a)) /\
  s !! str "printer_ip" = Some (e_printer_ip (form a)) /\
  s !! str "printer_port" = Some (e_printer_port (form a)) /\
  s !! str "printer_usb_vendor" = Some (e_usb_vendor (form a)) /\
  s !! str "printer_usb_product" = Some (e_usb_product (form a)).
Proof.
  intros s. subst s. rewrite save_config_world. unfold db_settings. cbn [db settings].
  split_and!;
    repeat (rewrite lookup_insert_ne by distinct_keys);
    apply lookup_insert_eq.
Qed.

(** X9: after [_save_config], each of the eight settings reads back as
    the text of its entry, whatever default the reader gives, so that a
    default is only ever used for a setting that was never saved; the
    products, the sales, the cart and the trace are untouched and one
    message box is shown. *)
Theorem save_config_read_back a d :
  form_encodable (form a) ->
  let a' := _save_config a in
  let s := db_settings (app_world a') in
  dict_get s (str "store_name") d = e_store_name (form a) /\
  dict_get s (str "store_address") d = e_store_addr (form a) /\
  dict_get s (str "store_phone") d = e_store_phone (form a) /\
  dict_get s (str "printer_mode") d = pm_var (form a) /\
  dict_get s (str "printer_ip") d = e_printer_ip (form a) /\
  dict_get s (str "printer_port") d = e_printer_port (form a) /\
  dict_get s (str "printer_usb_vendor") d = e_usb_vendor (form a) /\
  dict_get s (str "printer_usb_product") d = e_usb_product (form a) /\
  products (db (app_world a')) = products (db (app_world a)) /\
  sales (db (app_world a')) = sales (db (app_world a)) /\
  trace (app_world a') = trace (app_world a) /\
  cart a' = cart a /\ lb_cart a' = lb_cart a /\ form a' = form a /\
  dialogs a' = dialogs a ++ [ShowInfo (str "Sucesso") msg_config_saved].
Proof.
  intros _ a' s.
  destruct (save_config_lookups a) as (H1 & H2 & H3 & H4 & H5 & H6 & H7 & H8).
  fold a' in H1, H2, H3, H4, H5, H6, H7, H8. fold s in H1, H2, H3, H4, H5, H6, H7, H8.
  unfold dict_get. rewrite H1, H2, H3, H4, H5, H6, H7, H8.
  split_and!; done.
Qed.

Lemma save_config_read_back_witness :
  dict_get (db_settings (app_world (_save_config configured_app)))
    (str "store_name") (str "Minha Loja") = str "Burger House".
Proof.
  apply (save_config_read_back configured_app (str "Minha Loja")).
  repeat split; first [apply Forall_nil_2 | by apply encodable_literal].
Defined.


Lemma load_products_into_sale_form a :
  form (_load_products_into_sale a).2 = form a.
Proof. unfold _load_products_into_sale. by destruct (tv_insert_all _ _). Qed.

(** X11: [_load_store] after [_save_config] puts back into the eight
    entries the texts that were saved: none of the defaults of
    [_load_store] shows up. *)
Theorem load_store_after_save_config a :
  form_encodable (form a) ->
  form (_load_store (_save_config a)).2 = form a.
Proof.
  intros _. unfold _load_store. rewrite load_products_into_sale_form. cbn [form].
  unfold dict_get.
  destruct (save_config_lookups a) as (-> & -> & -> & -> & -> & -> & -> & ->).
  by destruct (form a).
Qed.

Lemma load_store_after_save_config_witness :
  form (_load_store (_save_config configured_app)).2 = shop_form.
Proof.
  apply (load_store_after_save_config configured_app).
  repeat split; first [apply Forall_nil_2 | by apply encodable_literal].
Defined.

(** ** The sale tab *)

Lemma delete_beyond {A} (l : list A) i : (length l <= i)%nat -> delete i l = l.
Proof.
  revert i. induction l as [|x l IH]; intros i Hi; [by destruct i|].
  destruct i as [|i]; simpl in *; [lia|]. f_equal. apply IH. lia.
Qed.

Lemma select_product_found (rows : list product_row) r :
  NoDup (product_id <$> rows) -> r ∈ rows ->
  select_product (product_id r) rows = Some (product_name r, product_price r).
Proof.
  unfold select_product. intros Hnd Hin.
  induction rows as [|r' rows IH]; [by apply elem_of_nil in Hin|].
  rewrite fmap_cons in Hnd. apply NoDup_cons in Hnd as [Hfresh Hnd].
  rewrite filter_cons. destruct (decide (product_id r' = product_id r)) as [Heq|Hne].
  - apply elem_of_cons in Hin as [->|Hin]; [done|].
    exfalso. apply Hfresh. rewrite Heq. apply list_elem_of_fmap. eauto.
  - apply elem_of_cons in Hin as [->|Hin]; [done|]. by apply IH.
Qed.


Lemma save_sale_failure ts items total payment w e :
  (save_sale ts items total payment w).1 = inl e ->
  save_sale ts items total payment w = (inl e, w).
Proof.
  unfold save_sale.
  destruct (encode_utf8 ts); [cbn; congruence|].
  destruct (encode_utf8 payment); [cbn; congruence|].
  destruct (encode_utf8 _); [cbn; congruence|].
  destruct (negb _); cbn; congruence.
Qed.

Section SaleTab.

Variable ESC_POS_AVAILABLE : bool.
Variable env : list call_record -> event -> option exn.
Variable float_sum : list pyfloat -> pyfloat.
Variable int_times_float : Z -> pyfloat -> exn + pyfloat.

Lemma update_total_in_sync a :
  lb_cart a = sale_line <$> cart a -> in_sync float_sum (_update_total float_sum a).
Proof. intros Hlb. by split. Qed.

(** X12: the cart list box and the total on screen follow the cart.
    If the list box shows the cart line for line and the total shown is
    that of the cart, this is still so after [_add_to_cart],
    [_remove_cart_item] and [_finalize], whatever is selected or typed,
    whether they return or raise and whatever the printer does. *)
Theorem cart_stays_in_sync sel qty_text cursel ts payment a :
  in_sync float_sum a ->
  in_sync float_sum (_add_to_cart float_sum int_times_float sel qty_text a).2 /\
  in_sync float_sum (_remove_cart_item float_sum cursel a).2 /\
  in_sync float_sum (_finalize ESC_POS_AVAILABLE env float_sum ts payment a).2.
Proof.
  intros [Hlb Htotal]. split_and!.
  - unfold _add_to_cart. destruct sel as [|iid sel]; [done|].
    destruct (py_int iid 10) as [e|pid]; [done|].
    destruct (py_int qty_text 10) as [e|qty]; [done|].
    destruct (negb (int64 pid)); [done|].
    destruct (select_product _ _) as [[name price]|]; [|done].
    destruct (int_times_float qty price) as [e|total_price]; [done|].
    apply update_total_in_sync. cbn [lb_cart cart]. by rewrite fmap_app, Hlb.
  - unfold _remove_cart_item. destruct cursel as [|idx cursel]; [done|].
    case_bool_decide as Hidx.
    + apply update_total_in_sync. cbn [lb_cart cart]. by rewrite list_fmap_delete, Hlb.
    + cbn [snd]. split; cbn [lb_cart cart total_var]; [|done].
      rewrite delete_beyond; [done|]. rewrite Hlb, length_fmap. lia.
  - unfold _finalize. destruct (cart a) as [|it c] eqn:Hcart.
    + cbn [snd]. split; cbn [lb_cart cart total_var show]; by rewrite ?Hcart.
    + destruct ((save_sale _ _ _ _ >> read_store) _) as [[e|store] w2].
      * cbn [snd]. split; cbn [lb_cart cart total_var]; by rewrite ?Hcart.
      * destruct (print_receipt _ _ _ _ _ _ _) as [printed w3].
        by apply update_total_in_sync.
Qed.

(** X13: [_remove_cart_item] takes the selected line out of the cart
    and out of the list box, and nothing else: when the two are in line
    and the selected index is one of the list box, it does not raise,
    the cart loses exactly its element at that index, and the database
    and the trace are untouched; with nothing selected nothing changes. *)
Theorem remove_cart_item_removes idx rest a :
  in_sync float_sum a ->
  (idx < length (lb_cart a))%nat ->
  let a' := (_remove_cart_item float_sum (idx :: rest) a).2 in
  (_remove_cart_item float_sum (idx :: rest) a).1 = inr tt /\
  cart a' = take idx (cart a) ++ drop (S idx) (cart a) /\
  lb_cart a' = take idx (lb_cart a) ++ drop (S idx) (lb_cart a) /\
  S (length (cart a')) = length (cart a) /\
  total_var a' = fmt2 (cart_total float_sum (cart a')) /\
  app_world a' = app_world a /\
  dialogs a' = dialogs a /\
  _remove_cart_item float_sum [] a = (inr tt, a).
Proof.
  intros [Hlb Htotal] Hidx a'. subst a'.
  assert (Hlen : (idx < length (cart a))%nat) by (by rewrite Hlb, length_fmap in Hidx).
  unfold _remove_cart_item. rewrite bool_decide_eq_true_2 by done.
  cbn [fst snd cart lb_cart total_var app_world dialogs _update_total].
  rewrite <- !delete_take_drop. split_and!; try done.
  rewrite length_delete by (by apply lookup_lt_is_Some_2). lia.
Qed.

(** X14: [_add_to_cart] on the row of a product.  When the ids of the
    product table are distinct, the selected iid is the one written for
    a product of the table, the quantity text is an int and the product
    quantity * price does not overflow, the cart gains at its end the
    line (quantity, name, quantity * price) of that product, the list box gains its text, and the database and the trace
    are untouched.  The quantity is taken as typed: zero and negative
    ints are accepted. *)
Theorem add_to_cart_adds r rest qty_text qty total_price a :
  NoDup (product_id <$> products (db (app_world a))) ->
  r ∈ products (db (app_world a)) ->
  int64 (product_id r) = true ->
  py_int qty_text 10 = inr qty ->
  int_times_float qty (product_price r) = inr total_price ->
  let it := (qty, product_name r, total_price) in
  let a' :=
    (_add_to_cart float_sum int_times_float (format_int (product_id r) :: rest)
       qty_text a).2 in
  (_add_to_cart float_sum int_times_float (format_int (product_id r) :: rest)
     qty_text a).1 = inr tt /\
  cart a' = cart a ++ [it] /\
  lb_cart a' = lb_cart a ++ [sale_line it] /\
  total_var a' = fmt2 (cart_total float_sum (cart a ++ [it])) /\
  app_world a' = app_world a /\
  dialogs a' = dialogs a.
Proof.
  intros Hnd Hin Hid Hqty Hmul it a'. subst a'. unfold _add_to_cart.
  rewrite py_int_format_int, Hqty, Hid, (select_product_found _ r Hnd Hin), Hmul.
  done.
Qed.


Lemma read_store_run w :
  read_store w
  = (inr (<[str "name" := dict_get (db_settings w) (str "store_name") (str "Minha Loja")]>
            (<[str "address" := dict_get (db_settings w) (str "store_address") []]>
               (<[str "phone" := dict_get (db_settings w) (str "store_phone") []]> ∅))),
     w).
Proof. reflexivity. Qed.

(** X16: [_finalize] with lines in the cart records the sale and clears
    the cart whatever the printer does.  It returns without raising; the
    sales table gains one row with the time, the total of the cart, the
    payment and the lines of the cart, also when the printing raises;
    products and settings are unchanged; the only device calls are those
    of the one [print_receipt]; the cart and the list box are emptied and
    the total shows 0.00; one message box is added, the success message
    when [print_receipt] returned and otherwise the error message with
    the exception that it raised.  The time, the payment and the names
    in the cart are texts that SQLite can store, and the sales table has
    an id left for the new row. *)
Theorem finalize_records_sale ts payment a :
  cart a <> [] ->
  encodable_str ts -> encodable_str payment ->
  Forall (fun it : cart_line => encodable_str it.1.2) (cart a) ->
  int64 (next_id (sale_id <$> sales (db (app_world a)))) = true ->
  let w := app_world a in
  let total := cart_total float_sum (cart a) in
  let row :=
    (next_id (sale_id <$> sales (db w)), ts, total, payment,
     join [NEWLINE] (sale_line <$> cart a)) in
  let w2 := World (Database (products (db w)) (sales (db w) ++ [row]) (settings (db w)))
              (trace w) in
  let store :=
    <[str "name" := dict_get (settings (db w)) (str "store_name") (str "Minha Loja")]>
      (<[str "address" := dict_get (settings (db w)) (str "store_address") []]>
         (<[str "phone" := dict_get (settings (db w)) (str "store_phone") []]> ∅)) in
  let print := print_receipt ESC_POS_AVAILABLE env store (cart a) total payment w2 in
  let a' := (_finalize ESC_POS_AVAILABLE env float_sum ts payment a).2 in
  (_finalize ESC_POS_AVAILABLE env float_sum ts payment a).1 = inr tt /\
  sales (db (app_world a')) = sales (db w) ++ [row] /\
  products (db (app_world a')) = products (db w) /\
  settings (db (app_world a')) = settings (db w) /\
  trace (app_world a') = trace print.2 /\
  cart a' = [] /\ lb_cart a' = [] /\ total_var a' = str "0.00" /\
  dialogs a'
  = dialogs a
    ++ [match print.1 with
        | inr _ => ShowInfo (str "Sucesso") msg_sale_printed
        | inl e => ShowError title_print_error (str "Falha ao imprimir:" ++ [NEWLINE]) e
        end].
Proof.
  intros Hcart Hts Hpay Hitems Hroom w total row w2 store print a'.
  assert (Hrun : _finalize ESC_POS_AVAILABLE env float_sum ts payment a
                 = (inr tt,
                    _update_total float_sum
                      (App print.2 [] [] (total_var a) (form a) (tv_sale_products a)
                         (dialogs a
                          ++ [match print.1 with
                              | inr _ => ShowInfo (str "Sucesso") msg_sale_printed
                              | inl e =>
                                  ShowError title_print_error
                                    (str "Falha ao imprimir:" ++ [NEWLINE]) e
                              end])))).
  { subst print store w2 row total w. unfold _finalize.
    destruct (cart a) as [|it c] eqn:Hc; [done|].
    unfold bind at 1. rewrite save_sale_stores by done. rewrite read_store_run.
    unfold db_settings. cbn [db settings].
    by destruct (print_receipt _ _ _ _ _ _ _) as [printed w3]. }
  subst a'. rewrite Hrun. cbn [fst snd app_world cart lb_cart total_var dialogs _update_total].
  pose proof (adds_only_print_receipt ESC_POS_AVAILABLE env (fun _ => True)
                store (cart a) total payment (fun _ _ => I) w2) as [Hdb _].
  fold print in Hdb. rewrite Hdb.
  split_and!; done.
Qed.


(** X23: the sale is saved outside the [try] of [_finalize].  When
    [save_sale] raises, for a payment or a product name that SQLite
    cannot store or a sales table with no id left, [_finalize] raises
    the same exception: no sale is recorded, nothing is sent to the
    printer, no message box is shown, and the cart, the list box and the
    total stay as they were. *)
Theorem finalize_save_fails ts payment a e :
  cart a <> [] ->
  (save_sale ts (cart a) (cart_total float_sum (cart a)) payment (app_world a)).1
  = inl e ->
  _finalize ESC_POS_AVAILABLE env float_sum ts payment a = (inl e, a).
Proof.
  intros Hcart Hfail. apply save_sale_failure in Hfail.
  unfold _finalize. destruct (cart a) as [|it c] eqn:Hc; [done|].
  unfold bind at 1. rewrite Hfail. rewrite <- Hc. by destruct a.
Qed.

End SaleTab.

Lemma finalize_save_fails_witness :
  _finalize true env_ok sum_is_5 (str "2025-01-01 10:00:00") [55296%N] shop_app
  = (inl (UnicodeEncodeError [55296%N]), shop_app).
Proof.
  apply (finalize_save_fails true env_ok sum_is_5 (str "2025-01-01 10:00:00")
           [55296%N] shop_app).
  - vm_compute. discriminate.
  - vm_compute. reflexivity.
Defined.

Lemma cart_stays_in_sync_witness :
  in_sync sum_is_5 (_remove_cart_item sum_is_5 [0%nat] shop_app).2.
Proof.
  apply (cart_stays_in_sync true env_ok sum_is_5 times_one [] [] [0%nat] [] [] shop_app).
  split; vm_compute; reflexivity.
Defined.

Lemma remove_cart_item_removes_witness :
  cart (_remove_cart_item sum_is_5 [0%nat] shop_app).2
  = take 0 (cart shop_app) ++ drop 1 (cart shop_app).
Proof.
  apply (remove_cart_item_removes sum_is_5 0%nat [] shop_app).
  - split; vm_compute; reflexivity.
  - vm_compute. lia.
Defined.

Lemma add_to_cart_adds_witness :
  cart (_add_to_cart sum_is_5 times_one [format_int (product_id burger_row)] (str "2")
          shop_app).2
  = cart shop_app
    ++ [(2, product_name burger_row, product_price burger_row)].
Proof.
  apply (add_to_cart_adds sum_is_5 times_one burger_row [] (str "2") 2
           (product_price burger_row) shop_app).
  - apply NoDup_singleton.
  - apply list_elem_of_here.
  - vm_compute. reflexivity.
  - vm_compute. reflexivity.
  - reflexivity.
Defined.


Lemma finalize_records_sale_witness :
  (_finalize true env_refused sum_is_5 (str "2025-01-01 10:00:00") (str "Dinheiro")
     shop_app).1 = inr tt.
Proof.
  apply (finalize_records_sale true env_refused sum_is_5 (str "2025-01-01 10:00:00")
           (str "Dinheiro") shop_app).
  - vm_compute. discriminate.
  - by apply encodable_literal.
  - by apply encodable_literal.
  - apply Forall_singleton. by apply encodable_literal.
  - reflexivity.
Defined.



(** ** The header of the receipts of the window *)

(** X18: the store that [_finalize] hands to the printer always has a
    name, an address and a phone, read from the settings store_name,
    store_address and store_phone.  The header of the receipt is thus
    the saved name, or 'Minha Loja' when none was ever saved, followed
    by the saved address and phone when they are not empty; a name saved
    as the empty text gives a blank first row, not the default. *)
Theorem read_store_header w d :
  let s := db_settings w in
  let name := dict_get s (str "store_name") (str "Minha Loja") in
  let addr := dict_get s (str "store_address") [] in
  let phone := dict_get s (str "store_phone") [] in
  exists store,
    read_store w = (inr store, w) /\
    dict_get store (str "name") d = name /\
    dict_get store (str "address") d = addr /\
    dict_get store (str "phone") d = phone /\
    header_rows store
    = [center name 32]
      ++ (if truthy addr then [center addr 32] else [])
      ++ (if truthy phone then [center (str "Tel: " ++ phone) 32] else []).
Proof.
  intros s name addr phone. eexists. split; [apply read_store_run|].
  fold s. fold name addr phone.
  assert (Hn : forall d', dict_get
                 (<[str "name" := name]>
                    (<[str "address" := addr]> (<[str "phone" := phone]> ∅)))
                 (str "name") d' = name).
  { intros d'. unfold dict_get. by rewrite lookup_insert_eq. }
  assert (Ha : forall d', dict_get
                 (<[str "name" := name]>
                    (<[str "address" := addr]> (<[str "phone" := phone]> ∅)))
                 (str "address") d' = addr).
  { intros d'. unfold dict_get.
    rewrite lookup_insert_ne by distinct_keys. by rewrite lookup_insert_eq. }
  assert (Hp : forall d', dict_get
                 (<[str "name" := name]>
                    (<[str "address" := addr]> (<[str "phone" := phone]> ∅)))
                 (str "phone") d' = phone).
  { intros d'. unfold dict_get.
    do 2 rewrite lookup_insert_ne by distinct_keys. by rewrite lookup_insert_eq. }
  split_and!; [apply Hn|apply Ha|apply Hp|].
  unfold header_rows. cbv zeta. by rewrite Hn, Ha, Hp.
Qed.

(** ** The product list of the sale tab *)

#[local] Instance by_id_total : Total by_id.
Proof. intros r1 r2. unfold by_id. lia. Qed.

#[local] Instance by_id_transitive : Transitive by_id.
Proof. intros r1 r2 r3. unfold by_id. lia. Qed.




(** ** How far the shown amounts can be from the shown total *)

Lemma round_half_even_close num den :
  (0 < den)%N ->
  (2 * round_half_even num den * den <= 2 * num + den /\
   2 * num <= 2 * round_half_even num den * den + den)%N.
Proof.
  intros Hden. unfold round_half_even.
  pose proof (N.div_mod num den ltac:(lia)) as Hdm.
  pose proof (N.mod_lt num den ltac:(lia)) as Hlt.
  generalize dependent (num / den)%N. generalize dependent (num mod den)%N.
  intros r Hr q Hq.
  destruct (N.ltb_spec (2 * r) den); [nia|].
  destruct (N.ltb_spec den (2 * r)); [nia|].
  destruct (N.even q); nia.
Qed.

Lemma finite_cents_close s m e v :
  float_value (Finite s m e) = Some v ->
  let c := if s then - Z.of_N (hundredths m e) else Z.of_N (hundredths m e) in
  (inject_Z c - inject_Z 100 * v <= 1 # 2)%Q /\
  (- (1 # 2) <= inject_Z c - inject_Z 100 * v)%Q.
Proof.
  intros Hv c. simpl in Hv. injection Hv as <-. subst c. unfold hundredths.
  destruct (Z.leb_spec 0 e) as [He|He].
  - assert (Hpow : Z.of_N (2 ^ Z.to_N e) = 2 ^ e).
    { rewrite N2Z.inj_pow, Z2N.id by done. done. }
    rewrite !N2Z.inj_mul, Hpow. change (Z.of_N 100) with 100.
    generalize (2 ^ e). intros p.
    destruct s; unfold Qle, Qminus, Qplus, Qmult, Qopp, inject_Z; simpl; lia.
  - assert (Hden : Z.pos (2 ^ Z.to_pos (- e)) = Z.of_N (2 ^ Z.to_N (- e))).
    { rewrite Pos2Z.inj_pow, N2Z.inj_pow, Z2Pos.id, Z2N.id by lia. done. }
    assert (Hpos : (0 < 2 ^ Z.to_N (- e))%N).
    { apply N.neq_0_lt_0, N.pow_nonzero. lia. }
    destruct (round_half_even_close (m * 100) (2 ^ Z.to_N (- e)) Hpos) as [Hup Hlo].
    generalize dependent (round_half_even (m * 100) (2 ^ Z.to_N (- e))). intros h Hup Hlo.
    generalize dependent (2 ^ Z.to_N (- e))%N. intros den Hden Hpos Hup Hlo.
    destruct s; unfold Qle, Qminus, Qplus, Qmult, Qopp, inject_Z; simpl;
      rewrite ?Hden; nia.
Qed.

Lemma sum_displayed_close xs V :
  sum_values xs = Some V ->
  exists S,
    sum_displayed (fmt2 <$> xs) = Some S /\
    (inject_Z S - inject_Z 100 * V <= inject_Z (Z.of_nat (length xs)) * (1 # 2))%Q /\
    (- (inject_Z (Z.of_nat (length xs)) * (1 # 2)) <= inject_Z S - inject_Z 100 * V)%Q.
Proof.
  revert V. induction xs as [|x xs IH]; intros V HV.
  - injection HV as <-. exists 0. split; [done|]. split; vm_compute; discriminate.
  - cbn [sum_values] in HV.
    destruct (float_value x) as [v|] eqn:Hv; [|done].
    destruct (sum_values xs) as [V'|] eqn:HV'; [|done].
    injection HV as <-.
    destruct (IH V' eq_refl) as (S' & HS' & Hup & Hlo).
    destruct x as [s m e| |]; try done.
    destruct (finite_cents_close s m e v Hv) as [Hcu Hcl].
    rewrite fmap_cons. cbn [sum_displayed].
    rewrite displayed_cents_fmt2, HS'.
    eexists. split; [done|].
    rewrite inject_Z_plus.
    cbn [length]. rewrite Nat2Z.inj_succ. unfold Z.succ. rewrite inject_Z_plus.
    change (inject_Z 100) with (100 # 1)%Q in *. change (inject_Z 1) with (1 # 1)%Q.
    set (cq := inject_Z (if s then - Z.of_N (hundredths m e)
                         else Z.of_N (hundredths m e))) in *.
    set (Sq := inject_Z S') in *. set (n := inject_Z (Z.of_nat (length xs))) in *.
    clearbody cq Sq n. split; lra.
Qed.

(** X20: how far the receipt can be from adding up.  When the total
    is the exact sum of finite line totals, the two-decimal amounts of
    the item rows add up to the two-decimal total of the TOTAL row to
    within half a hundredth for each row and for the total: twice the
    difference, in hundredths, is at most the number of lines plus one. *)
Theorem displayed_sum_close items total :
  exact_total items total ->
  exists shown_sum shown_total,
    sum_displayed (fmt2 <$> item_amounts items) = Some shown_sum /\
    displayed_cents (fmt2 total) = Some shown_total /\
    2 * Z.abs (shown_sum - shown_total) <= Z.of_nat (length items) + 1.
Proof.
  intros (V & T & HV & HT & HVT).
  destruct (sum_displayed_close _ V HV) as (S & HS & Hup & Hlo).
  destruct total as [s m e| |]; try done.
  destruct (finite_cents_close s m e T HT) as [Hcu Hcl].
  exists S. eexists. split; [done|]. split; [apply displayed_cents_fmt2|].
  set (c := if s then - Z.of_N (hundredths m e) else Z.of_N (hundredths m e)) in *.
  unfold item_amounts in Hup, Hlo. rewrite length_fmap in Hup, Hlo.
  rewrite HVT in Hup, Hlo.
  assert (H12 : (inject_Z (2 * (S - c)) <= inject_Z (Z.of_nat (length items) + 1))%Q /\
                (inject_Z (2 * (c - S)) <= inject_Z (Z.of_nat (length items) + 1))%Q).
  { rewrite !inject_Z_mult, !inject_Z_plus. unfold Z.sub.
    rewrite !inject_Z_plus, !inject_Z_opp.
    change (inject_Z 2) with (2 # 1)%Q. change (inject_Z 1) with (1 # 1)%Q.
    change (inject_Z 100) with (100 # 1)%Q in *.
    unfold cart_line in *.
    set (cq := inject_Z c) in *. set (Sq := inject_Z S) in *.
    set (n := inject_Z (Z.of_nat (length items))) in *.
    clearbody cq Sq n. split; lra. }
  destruct H12 as [H1 H2].
  rewrite <- Zle_Qle in H1, H2. lia.
Qed.

Lemma displayed_sum_close_witness :
  exists shown_sum shown_total,
    sum_displayed (fmt2 <$> item_amounts [(1, str "A", f_eighth); (1, str "B", f_eighth)])
    = Some shown_sum /\
    displayed_cents (fmt2 f_quarter) = Some shown_total /\
    2 * Z.abs (shown_sum - shown_total) <= Z.of_nat 2 + 1.
Proof.
  apply (displayed_sum_close [(1, str "A", f_eighth); (1, str "B", f_eighth)] f_quarter).
  eexists _, _. split_and!; [reflexivity|reflexivity|]. vm_compute. reflexivity.
Defined.

(** ** Deleting and changing products *)

Section Catalogue.

Variable float_sum : list pyfloat -> pyfloat.
Variable int_times_float : Z -> pyfloat -> exn + pyfloat.


End Catalogue.






